(** * Gesture recognition app: capture loop, inference gateway, history

    A shallow embedding of the orchestration code of the application:

    - [types.ts]                      the data model;
    - [services/geminiService.ts]     [analyzeGesture], the gateway to the
                                      remote model;
    - [components/WebcamCapture.tsx]  the camera and the capture loop;
    - [App.tsx]                       [handleCapture], [toggleScanning],
                                      [handleError] and the React state.

    JavaScript numbers are IEEE binary64 values: they are embedded as
    primitive floats, and [>] is [PrimFloat.ltb] with its arguments swapped.
    Strings are embedded as byte strings holding the UTF-8 encoding of the
    source literal.  An [async] function is split at its [await] into the
    part that runs up to the suspension and the continuation that runs when
    the awaited promise settles. *)

From Stdlib Require Import String Ascii List ZArith Bool Lia PrimFloat Sorted.
Import ListNotations.

Set Implicit Arguments.
Open Scope string_scope.

(* ================================================================= *)
(** ** types.ts *)

Record GestureResponse : Type := mkGestureResponse {
  gesture : string;
  confidence : float;
  description : string;
  emoji : string;
  actionSuggested : option string
}.

Inductive AppState : Type := IDLE | SCANNING | ERROR.

Record HistoryItem : Type := mkHistoryItem {
  timestamp : Z;
  result : GestureResponse
}.

Definition AppState_eqb (a b : AppState) : bool :=
  match a, b with
  | IDLE, IDLE | SCANNING, SCANNING | ERROR, ERROR => true
  | _, _ => false
  end.

(* ================================================================= *)
(** ** JavaScript control flow: completions, [try]/[catch], truthiness *)

Module Js.

(** What can be thrown in the code under study. *)
Inductive Exn : Type :=
| Error (message : string)       (* [new Error(message)] *)
| SyntaxError                    (* raised by [JSON.parse] *)
| Rejection (reason : string).   (* a rejected promise of a library call *)

(** The outcome of evaluating a block, or of a settled promise. *)
Inductive Completion (A : Type) : Type :=
| Normal (a : A)
| Thrown (e : Exn).
Arguments Thrown {A} e.

Definition bind {A B : Type} (c : Completion A) (k : A -> Completion B)
  : Completion B :=
  match c with
  | Normal a => k a
  | Thrown e => Thrown e
  end.

(** [try { body } catch (error) { handler }] *)
Definition try_catch {A : Type} (body : Completion A)
           (handler : Exn -> Completion A) : Completion A :=
  match body with
  | Normal a => Normal a
  | Thrown e => handler e
  end.

(** [!text] for a value that is [undefined] or a string. *)
Definition not_ (text : option string) : bool :=
  match text with
  | None => true
  | Some EmptyString => true
  | Some (String _ _) => false
  end.

(** The string a library function sees when handed [text]. *)
Definition ToString (text : option string) : string :=
  match text with
  | Some t => t
  | None => "undefined"
  end.

(** [a !== b] on strings. *)
Definition strict_ne (a b : string) : bool := negb (String.eqb a b).

(** [a > b] on numbers. *)
Definition gt (a b : float) : bool := PrimFloat.ltb b a.

(** [[x, ...xs].slice(0, n)] for [0 <= n]. *)
Definition slice0 {A : Type} (n : nat) (xs : list A) : list A := firstn n xs.

End Js.

Notation "x <- c ;; k" := (Js.bind c (fun x => k))
  (at level 61, c at next level, right associativity).

(* ================================================================= *)
(** ** services/geminiService.ts *)

Module GeminiService.

(** What [ai.models.generateContent] resolves to; only [response.text] is
    read, and it is [undefined] when the reply carries no text part. *)
Record GenerateContentResponse : Type := mkResponse {
  text : option string
}.

(** [\w] of a JavaScript regular expression without the [u] flag. *)
Definition is_word_char (c : ascii) : bool :=
  let n := nat_of_ascii c in
  (((48 <=? n) && (n <=? 57)) || ((65 <=? n) && (n <=? 90))
   || ((97 <=? n) && (n <=? 122)) || (n =? 95))%nat.

Fixpoint drop_prefix (p s : string) : option string :=
  match p, s with
  | EmptyString, _ => Some s
  | String a p', String b s' =>
      if Ascii.eqb a b then drop_prefix p' s' else None
  | String _ _, EmptyString => None
  end.

Fixpoint drop_word_chars (s : string) : string :=
  match s with
  | String c s' => if is_word_char c then drop_word_chars s' else s
  | EmptyString => s
  end.

(** [base64Image.replace(/^data:image\/\w+;base64,/, empty)]: the prefix
    of a data URL is removed when it is there.  The character
    after the run of word characters must be [;], which is not a word
    character, so the greedy match of [\w+] is the only candidate. *)
Definition cleanBase64 (base64Image : string) : string :=
  match drop_prefix "data:image/" base64Image with
  | Some (String c rest) =>
      if is_word_char c then
        match drop_prefix ";base64," (drop_word_chars rest) with
        | Some payload => payload
        | None => base64Image
        end
      else base64Image
  | _ => base64Image
  end.

(** The fallback object of the [catch] block. *)
Definition fallback : GestureResponse :=
  {| gesture := "Error";
     confidence := 0%float;
     description := "Failed to analyze frame.";
     emoji := "⚠️";
     actionSuggested := None |}.

(** The request part of [analyzeGesture]: the payload handed to
    [generateContent], on which the function then awaits. *)
Definition analyzeGesture_request (base64Image : string) : string :=
  cleanBase64 base64Image.

Section AnalyzeGesture.

(** [JSON.parse(text) as GestureResponse]: the library parser, which
    throws a [SyntaxError] on text that is not JSON.  The cast is
    unchecked; the response schema sent with the request makes the
    service answer with an object of this shape. *)
Variable JSON_parse : string -> Js.Completion GestureResponse.

(** The body of the [try] block from the [await] on: [settled] is how
    the promise of [generateContent] settled. *)
Definition analyzeGesture_try
           (settled : Js.Completion GenerateContentResponse)
  : Js.Completion GestureResponse :=
  response <- settled ;;
  let text := text response in
  if Js.not_ text then Js.Thrown (Js.Error "No response text from Gemini")
  else JSON_parse (Js.ToString text).

(** [analyzeGesture], as the completion of the promise it returns. *)
Definition analyzeGesture
           (settled : Js.Completion GenerateContentResponse)
  : Js.Completion GestureResponse :=
  Js.try_catch (analyzeGesture_try settled)
               (fun error => Js.Normal fallback).

End AnalyzeGesture.

End GeminiService.

(* ================================================================= *)
(** ** The state of the running page

    One record holds what the two components keep between events: the
    [useState] cells and the [useRef] cell of [App], the [useState] cells
    and the refs of [WebcamCapture], the timer of the capture-loop effect,
    and the calls to the remote model that have been issued and have not
    settled yet.  A [setX(v)] of React is the update of the cell. *)

Record VideoElement : Type := mkVideo {
  videoWidth : Z;
  videoHeight : Z;
  (** what [canvas.toDataURL('image/jpeg', 0.8)] yields once the current
      picture has been drawn mirrored on the canvas *)
  picture : string
}.

Record CanvasElement : Type := mkCanvas {
  (** whether [canvas.getContext('2d')] is non-null *)
  context2d : bool
}.

Record World : Type := mkWorld {
  (* App *)
  appState : AppState;
  currentResult : option GestureResponse;
  history : list HistoryItem;
  isProcessing : bool;
  errorMsg : option string;
  isProcessingRef : bool;
  (* WebcamCapture *)
  videoRef : option VideoElement;
  canvasRef : option CanvasElement;
  streamActive : bool;
  permissionDenied : bool;
  (** the [setInterval] handle of the capture loop is live *)
  interval : bool;
  (* event loop *)
  (** payloads of the [generateContent] calls awaiting settlement *)
  pending : list string
}.

Definition setAppState (v : AppState) (w : World) : World :=
  mkWorld v (currentResult w) (history w) (isProcessing w) (errorMsg w)
          (isProcessingRef w) (videoRef w) (canvasRef w) (streamActive w)
          (permissionDenied w) (interval w) (pending w).

Definition setCurrentResult (v : option GestureResponse) (w : World) : World :=
  mkWorld (appState w) v (history w) (isProcessing w) (errorMsg w)
          (isProcessingRef w) (videoRef w) (canvasRef w) (streamActive w)
          (permissionDenied w) (interval w) (pending w).

(** [setHistory(prev => f(prev))] *)
Definition setHistory (f : list HistoryItem -> list HistoryItem) (w : World)
  : World :=
  mkWorld (appState w) (currentResult w) (f (history w)) (isProcessing w)
          (errorMsg w) (isProcessingRef w) (videoRef w) (canvasRef w)
          (streamActive w) (permissionDenied w) (interval w) (pending w).

Definition setIsProcessing (v : bool) (w : World) : World :=
  mkWorld (appState w) (currentResult w) (history w) v (errorMsg w)
          (isProcessingRef w) (videoRef w) (canvasRef w) (streamActive w)
          (permissionDenied w) (interval w) (pending w).

Definition setErrorMsg (v : option string) (w : World) : World :=
  mkWorld (appState w) (currentResult w) (history w) (isProcessing w) v
          (isProcessingRef w) (videoRef w) (canvasRef w) (streamActive w)
          (permissionDenied w) (interval w) (pending w).

(** [isProcessingRef.current = v] *)
Definition setIsProcessingRef (v : bool) (w : World) : World :=
  mkWorld (appState w) (currentResult w) (history w) (isProcessing w)
          (errorMsg w) v (videoRef w) (canvasRef w) (streamActive w)
          (permissionDenied w) (interval w) (pending w).

Definition setDom (v : option VideoElement) (c : option CanvasElement)
           (w : World) : World :=
  mkWorld (appState w) (currentResult w) (history w) (isProcessing w)
          (errorMsg w) (isProcessingRef w) v c (streamActive w)
          (permissionDenied w) (interval w) (pending w).

Definition setStreamActive (v : bool) (w : World) : World :=
  mkWorld (appState w) (currentResult w) (history w) (isProcessing w)
          (errorMsg w) (isProcessingRef w) (videoRef w) (canvasRef w) v
          (permissionDenied w) (interval w) (pending w).

Definition setPermissionDenied (v : bool) (w : World) : World :=
  mkWorld (appState w) (currentResult w) (history w) (isProcessing w)
          (errorMsg w) (isProcessingRef w) (videoRef w) (canvasRef w)
          (streamActive w) v (interval w) (pending w).

(** [setInterval] ([true]) and [clearInterval] ([false]) of the capture loop *)
Definition setIntervalLive (v : bool) (w : World) : World :=
  mkWorld (appState w) (currentResult w) (history w) (isProcessing w)
          (errorMsg w) (isProcessingRef w) (videoRef w) (canvasRef w)
          (streamActive w) (permissionDenied w) v (pending w).

Definition setPending (v : list string) (w : World) : World :=
  mkWorld (appState w) (currentResult w) (history w) (isProcessing w)
          (errorMsg w) (isProcessingRef w) (videoRef w) (canvasRef w)
          (streamActive w) (permissionDenied w) (interval w) v.

(** The page as first rendered: the initial values of the hooks. *)
Definition initial : World :=
  mkWorld IDLE None [] false None false None None false false false [].

(* ================================================================= *)
(** ** components/WebcamCapture.tsx *)

Module WebcamCapture.

Section Props.

(** The props: [isScanning] is [appState === AppState.SCANNING] as [App]
    passes it; [onCapture] and [onError] are callbacks into [App]. *)
Variable onCapture : string -> World -> World.
Variable onError : string -> World -> World.

Definition isScanning (w : World) : bool :=
  AppState_eqb (appState w) SCANNING.

Definition is_null {A : Type} (ref : option A) : bool :=
  match ref with
  | None => true
  | Some _ => false
  end.

(** [captureFrame] of the capture-loop effect.  The closure reads the
    [isScanning] and [streamActive] of the render that started the
    effect; both are dependencies of the effect, so they are those of the
    current state whenever the closure runs. *)
Definition captureFrame (w : World) : World :=
  if negb (isScanning w) || is_null (videoRef w) || is_null (canvasRef w)
     || negb (streamActive w)
  then w
  else
    match videoRef w, canvasRef w with
    | Some video, Some canvas =>
        if context2d canvas && (0 <? videoWidth video)%Z
           && (0 <? videoHeight video)%Z
        then
          let imageData := picture video in
          onCapture imageData w
        else w
    | _, _ => w
    end.

(** One run of the capture-loop effect: the cleanup of the previous run
    ([clearInterval]), then the body. *)
Definition captureLoop (w : World) : World :=
  let w := setIntervalLive false w in
  if isScanning w then
    let w := captureFrame w in        (* immediate capture on start *)
    setIntervalLive true w            (* [setInterval(captureFrame, 1500)] *)
  else w.

(** React runs the effect again after a render in which one of its
    dependencies [isScanning], [onCapture], [streamActive] changed;
    [onCapture] is memoised with no dependency and never changes. *)
Definition commit (before after : World) : World :=
  if negb (Bool.eqb (isScanning before) (isScanning after))
     || negb (Bool.eqb (streamActive before) (streamActive after))
  then captureLoop after
  else after.

(** The timer of the capture loop fires. *)
Definition intervalFires (w : World) : World :=
  if interval w then captureFrame w else w.

(** [startCamera] from the settlement of [getUserMedia] on. *)
Definition startCamera (settled : Js.Completion unit) (w : World) : World :=
  match settled with
  | Js.Normal stream =>
      if negb (is_null (videoRef w)) then
        let w := setStreamActive true w in
        setPermissionDenied false w
      else w
  | Js.Thrown err =>
      let w := setPermissionDenied true w in
      onError "Camera access denied or unavailable." w
  end.

End Props.

End WebcamCapture.

(* ================================================================= *)
(** ** App.tsx *)

Module App.

(** The condition under which [handleCapture] adds a result to the
    history. *)
Definition isValidGesture (result : GestureResponse) : bool :=
  Js.strict_ne (gesture result) "None"
  && Js.strict_ne (gesture result) "Error"
  && Js.gt (confidence result) 0x1.3333333333333p-1%float.  (* 0.6 *)

(** The updater handed to [setHistory]; [now] is [Date.now()]. *)
Definition keepLast20 (now : Z) (result : GestureResponse)
           (prev : list HistoryItem) : list HistoryItem :=
  let newItem := {| timestamp := now; result := result |} in
  Js.slice0 20 (newItem :: prev).

(** [handleCapture] up to its [await]: the guard, the three updates, and
    the call of [analyzeGesture], which issues the request. *)
Definition handleCapture_begin (base64Image : string) (w : World) : World :=
  if isProcessingRef w then w
  else
    let w := setIsProcessingRef true w in
    let w := setIsProcessing true w in
    let w := setErrorMsg None w in
    setPending (pending w ++ [GeminiService.analyzeGesture_request base64Image]) w.

(** [handleCapture] from its [await] on: [awaited] is the completion of
    the promise of [analyzeGesture]. *)
Definition handleCapture_resume (awaited : Js.Completion GestureResponse)
           (now : Z) (w : World) : World :=
  let w :=
    match awaited with
    | Js.Normal result =>
        let w := setCurrentResult (Some result) w in
        if isValidGesture result
        then setHistory (keepLast20 now result) w
        else w
    | Js.Thrown err => w                (* [console.error] only *)
    end in
  (* finally *)
  let w := setIsProcessing false w in
  setIsProcessingRef false w.

Definition toggleScanning (w : World) : World :=
  if AppState_eqb (appState w) SCANNING then
    let w := setAppState IDLE w in
    setCurrentResult None w
  else
    let w := setAppState SCANNING w in
    setErrorMsg None w.

Definition handleError (msg : string) (w : World) : World :=
  let w := setAppState ERROR w in
  setErrorMsg (Some msg) w.

(** [disabled={appState === AppState.ERROR}] of the Start/Stop button. *)
Definition buttonDisabled (w : World) : bool :=
  AppState_eqb (appState w) ERROR.

End App.

(* ================================================================= *)
(** ** The event loop *)

(** What the browser can deliver to the page. *)
Inductive Event : Type :=
| Click
    (* a click on the Start/Stop button *)
| Tick
    (* the 1500 ms timer of the capture loop is due *)
| Settle (i : nat) (settled : Js.Completion GeminiService.GenerateContentResponse)
         (now : Z)
    (* the [i]-th pending [generateContent] call settles; [now] is what
       [Date.now()] returns while the result is ingested *)
| UserMedia (settled : Js.Completion unit)
    (* a [getUserMedia] call of [startCamera] settles *)
| Dom (video : option VideoElement) (canvas : option CanvasElement).
    (* the elements behind the refs change: mounting, a new picture *)

Fixpoint remove_nth {A : Type} (i : nat) (xs : list A) : list A :=
  match i, xs with
  | _, [] => []
  | O, _ :: xs' => xs'
  | S i', x :: xs' => x :: remove_nth i' xs'
  end.

Section EventLoop.

Variable JSON_parse : string -> Js.Completion GestureResponse.

Definition captureFrame : World -> World :=
  WebcamCapture.captureFrame App.handleCapture_begin.

Definition commit : World -> World -> World :=
  WebcamCapture.commit App.handleCapture_begin.

(** One event, run to completion: the handler, then the render and the
    effects it causes. *)
Definition step (w : World) (e : Event) : World :=
  match e with
  | Click =>
      if App.buttonDisabled w then w
      else commit w (App.toggleScanning w)
  | Tick =>
      WebcamCapture.intervalFires App.handleCapture_begin w
  | Settle i settled now =>
      match nth_error (pending w) i with
      | None => w
      | Some _ =>
          let w := setPending (remove_nth i (pending w)) w in
          App.handleCapture_resume
            (GeminiService.analyzeGesture JSON_parse settled) now w
      end
  | UserMedia settled =>
      commit w (WebcamCapture.startCamera App.handleError settled w)
  | Dom video canvas =>
      setDom video canvas w
  end.

Definition run (w : World) (es : list Event) : World := fold_left step es w.

End EventLoop.

(* ================================================================= *)
(** ** Sample data

    A picture, two replies of the remote model, and a table giving what
    [JSON.parse] returns on the two reply texts (and a [SyntaxError] on
    anything else), to run the definitions on. *)

Module Sample.

Definition dq : string := String (ascii_of_nat 34) EmptyString.

Definition member (key value : string) : string :=
  dq ++ key ++ dq ++ ":" ++ value.

Definition quoted (s : string) : string := dq ++ s ++ dq.

Definition object (g c d e : string) : string :=
  "{" ++ member "gesture" (quoted g) ++ "," ++ member "confidence" c ++ ","
      ++ member "description" (quoted d) ++ "," ++ member "emoji" (quoted e)
      ++ "}".

Definition fist_text : string := object "Fist" "0.61" "A closed fist." "F".
Definition fist : GestureResponse :=
  mkGestureResponse "Fist" 0x1.3851eb851eb85p-1%float (* 0.61 *)
                    "A closed fist." "F" None.

Definition none_text : string := object "None" "0.95" "No hand." "?".
Definition none : GestureResponse :=
  mkGestureResponse "None" 0x1.e666666666666p-1%float (* 0.95 *)
                    "No hand." "?" None.

Definition JSON_parse (t : string) : Js.Completion GestureResponse :=
  if String.eqb t fist_text then Js.Normal fist
  else if String.eqb t none_text then Js.Normal none
  else Js.Thrown Js.SyntaxError.

Definition video : VideoElement :=
  mkVideo 640 480 "data:image/jpeg;base64,/9j/4AAQ".

Definition canvas : CanvasElement := mkCanvas true.

Definition reply (t : string)
  : Js.Completion GeminiService.GenerateContentResponse :=
  Js.Normal (GeminiService.mkResponse (Some t)).

(** The camera is granted and the user presses Start: the first frame is
    captured at once and its request is in flight. *)
Definition started : list Event :=
  [Dom (Some video) (Some canvas); UserMedia (Js.Normal tt); Click].

End Sample.

(* ================================================================= *)
(** ** Vocabulary of the properties *)

Definition Parser : Type := string -> Js.Completion GestureResponse.

(** The threshold of the history condition, the binary64 value of [0.6]. *)
Definition threshold : float := 0x1.3333333333333p-1%float.

(** Ingesting a classification: [handleCapture] resumed with the value
    [analyzeGesture] returned. *)
Definition ingest (c : GestureResponse) (now : Z) (w : World) : World :=
  App.handleCapture_resume (Js.Normal c) now w.

(** A sequence of ingest operations, each with its [Date.now()]. *)
Definition ingestAll (cs : list (GestureResponse * Z)) (w : World) : World :=
  fold_left (fun w cn => ingest (fst cn) (snd cn) w) cs w.

(** A classification with its label replaced. *)
Definition withGesture (label : string) (c : GestureResponse)
  : GestureResponse :=
  mkGestureResponse label (confidence c) (description c) (emoji c)
                    (actionSuggested c).

Definition isClick (e : Event) : bool :=
  match e with
  | Click => true
  | _ => false
  end.

Definition isSettle (e : Event) : bool :=
  match e with
  | Settle _ _ _ => true
  | _ => false
  end.

(** No event of the sequence is a click on the Start/Stop button. *)
Definition noClick (es : list Event) : bool :=
  forallb (fun e => negb (isClick e)) es.

(** No event of the sequence is the settlement of a call. *)
Definition noSettle (es : list Event) : bool :=
  forallb (fun e => negb (isSettle e)) es.

(** Whether the call of the remote model failed: the request was rejected
    (transport), the reply has no text or an empty one, or its text does not
    parse. *)
Definition oracleFailed (JSON_parse : Parser)
           (settled : Js.Completion GeminiService.GenerateContentResponse)
  : bool :=
  match settled with
  | Js.Thrown _ => true
  | Js.Normal response =>
      Js.not_ (GeminiService.text response)
      || match JSON_parse (Js.ToString (GeminiService.text response)) with
         | Js.Thrown _ => true
         | Js.Normal _ => false
         end
  end.

(** The number of calls the guard accounts for. *)
Definition guardCount (w : World) : nat :=
  if isProcessingRef w then 1 else 0.

(** The pending calls are exactly those the guard accounts for, and the
    history holds at most 20 items. *)
Definition Invariant (w : World) : Prop :=
  length (pending w) = guardCount w /\ length (history w) <= 20.

(* ----------------------------------------------------------------- *)
(** *** Vocabulary of the further properties *)

(** Every character of [s] is a word character of a regular expression. *)
Fixpoint allWord (s : string) : bool :=
  match s with
  | EmptyString => true
  | String c s' => GeminiService.is_word_char c && allWord s'
  end.

(** The picture a capture would send: the camera stream is active, both
    elements are attached, the canvas has a 2d context and the video has a
    width and a height. *)
Definition readyPicture (w : World) : option string :=
  match videoRef w, canvasRef w with
  | Some video, Some canvas =>
      if streamActive w && context2d canvas && (0 <? videoWidth video)%Z
         && (0 <? videoHeight video)%Z
      then Some (picture video)
      else None
  | _, _ => None
  end.

(** The items a sequence of ingest operations adds, oldest first. *)
Definition acceptedItems (cs : list (GestureResponse * Z)) : list HistoryItem :=
  map (fun cn => mkHistoryItem (snd cn) (fst cn))
      (filter (fun cn => App.isValidGesture (fst cn)) cs).

(** The values of [Date.now()] at the settlements of a sequence of events. *)
Definition settleTimes (es : list Event) : list Z :=
  flat_map (fun e => match e with
                     | Settle _ _ now => [now]
                     | _ => []
                     end) es.

(** The result overlay of [App]: it is rendered, with the label, the emoji
    and the confidence of the current result, under the condition
    [currentResult && currentResult.gesture !== 'None']. *)
Definition resultOverlay (w : World) : option GestureResponse :=
  match currentResult w with
  | Some r => if Js.strict_ne (gesture r) "None" then Some r else None
  | None => None
  end.

(** The message [startCamera] hands to [onError]. *)
Definition deniedMessage : string := "Camera access denied or unavailable.".

(** What the hooks of the two components keep in step: the timer of the
    capture loop with the phase, the processing flag with the guard, the
    error message and the denied flag with the [ERROR] phase. *)
Definition PageInvariant (w : World) : Prop :=
  interval w = WebcamCapture.isScanning w
  /\ isProcessing w = isProcessingRef w
  /\ errorMsg w = (if App.buttonDisabled w then Some deniedMessage else None)
  /\ (permissionDenied w = true -> appState w = ERROR).

(** Every item of the history passes the history condition. *)
Definition HistoryValid (w : World) : Prop :=
  Forall (fun item => App.isValidGesture (result item) = true) (history w).

(* ================================================================= *)
(** * Properties *)

(** Closes a conjunction of facts that are hypotheses or hold by
    computation. *)
Ltac kept := repeat split; auto; intros; repeat split; auto.

(* ----------------------------------------------------------------- *)
(** ** JavaScript helpers *)

Lemma strict_ne_true (a b : string) : Js.strict_ne a b = true <-> a <> b.
Proof.
  unfold Js.strict_ne. rewrite negb_true_iff. split.
  - intros H E. apply String.eqb_eq in E. congruence.
  - intros H. apply String.eqb_neq. exact H.
Qed.

Lemma slice0_length (A : Type) (n : nat) (xs : list A) :
  length (Js.slice0 n xs) <= n.
Proof. unfold Js.slice0. apply firstn_le_length. Qed.

Lemma firstn_removelast (A : Type) (xs : list A) (n : nat) :
  length xs = S n -> firstn n xs = removelast xs.
Proof.
  revert n. induction xs as [|x xs IH]; intros n H; [discriminate|].
  destruct xs as [|y ys].
  - simpl in H. injection H as <-. reflexivity.
  - destruct n as [|n]; [discriminate|].
    change (x :: firstn n (y :: ys) = x :: removelast (y :: ys)).
    f_equal. apply IH. simpl in *. lia.
Qed.

(* ----------------------------------------------------------------- *)
(** ** The history condition *)

Lemma isValidGesture_true (c : GestureResponse) :
  App.isValidGesture c = true <->
  gesture c <> "None" /\ gesture c <> "Error"
  /\ Js.gt (confidence c) threshold = true.
Proof.
  unfold App.isValidGesture. rewrite !andb_true_iff, !strict_ne_true. tauto.
Qed.

Lemma keepLast20_front (now : Z) (c : GestureResponse) (prev : list HistoryItem) :
  App.keepLast20 now c prev = mkHistoryItem now c :: firstn 19 prev.
Proof. reflexivity. Qed.

Lemma ingest_history (c : GestureResponse) (now : Z) (w : World) :
  history (ingest c now w) =
  if App.isValidGesture c then App.keepLast20 now c (history w) else history w.
Proof.
  unfold ingest, App.handleCapture_resume.
  destruct (App.isValidGesture c); reflexivity.
Qed.

Lemma ingest_currentResult (c : GestureResponse) (now : Z) (w : World) :
  currentResult (ingest c now w) = Some c.
Proof.
  unfold ingest, App.handleCapture_resume.
  destruct (App.isValidGesture c); reflexivity.
Qed.

(* ----------------------------------------------------------------- *)
(** ** The gateway *)

Lemma analyzeGesture_total (JSON_parse : Parser) settled :
  exists r, GeminiService.analyzeGesture JSON_parse settled = Js.Normal r.
Proof.
  unfold GeminiService.analyzeGesture, Js.try_catch.
  destruct (GeminiService.analyzeGesture_try JSON_parse settled) as [r|e];
    eauto.
Qed.

Lemma analyzeGesture_failed (JSON_parse : Parser) settled :
  oracleFailed JSON_parse settled = true ->
  GeminiService.analyzeGesture JSON_parse settled
  = Js.Normal GeminiService.fallback.
Proof.
  unfold oracleFailed, GeminiService.analyzeGesture,
    GeminiService.analyzeGesture_try, Js.try_catch, Js.bind.
  destruct settled as [response|e]; [|reflexivity].
  destruct (Js.not_ (GeminiService.text response)); [reflexivity|].
  destruct (JSON_parse _); [discriminate|reflexivity].
Qed.

Lemma analyzeGesture_parsed (JSON_parse : Parser) settled :
  oracleFailed JSON_parse settled = false ->
  exists response,
    settled = Js.Normal response
    /\ GeminiService.analyzeGesture JSON_parse settled
       = JSON_parse (Js.ToString (GeminiService.text response)).
Proof.
  unfold oracleFailed, GeminiService.analyzeGesture,
    GeminiService.analyzeGesture_try, Js.try_catch, Js.bind.
  destruct settled as [response|e]; [|discriminate].
  intros H. exists response. split; [reflexivity|].
  destruct (Js.not_ (GeminiService.text response)); [discriminate|].
  destruct (JSON_parse _); [reflexivity|discriminate].
Qed.

Lemma step_Settle (JSON_parse : Parser) (w : World) i settled now p :
  nth_error (pending w) i = Some p ->
  step JSON_parse w (Settle i settled now)
  = App.handleCapture_resume
      (GeminiService.analyzeGesture JSON_parse settled) now
      (setPending (remove_nth i (pending w)) w).
Proof. intros H. unfold step. rewrite H. reflexivity. Qed.

(* ----------------------------------------------------------------- *)
(** ** C2: the acceptance policy *)

(** C2 (as the code has it).  A classification that is ingested is put at
    the front of the history if and only if its label is neither ["None"]
    nor ["Error"], compared exactly and with these capitals, and its
    confidence is strictly greater than 0.6; otherwise the history is left
    as it is.  A ["Fist"] at 0.61 is added, a ["Fist"] at 0.60 is not, and
    a ["None"] at 0.95 is not. *)
Theorem C2_acceptance_policy (c : GestureResponse) (now : Z) (w : World) :
  let accepted :=
    gesture c <> "None" /\ gesture c <> "Error"
    /\ Js.gt (confidence c) threshold = true in
  (accepted ->
   history (ingest c now w) = mkHistoryItem now c :: firstn 19 (history w))
  /\ (~ accepted -> history (ingest c now w) = history w)
  /\ (forall d e a,
        let fist061 :=
          mkGestureResponse "Fist" 0x1.3851eb851eb85p-1%float d e a in
        history (ingest fist061 now w)
        = mkHistoryItem now fist061 :: firstn 19 (history w))
  /\ (forall d e a,
        let fist060 :=
          mkGestureResponse "Fist" 0x1.3333333333333p-1%float d e a in
        history (ingest fist060 now w) = history w)
  /\ (forall d e a,
        let none095 :=
          mkGestureResponse "None" 0x1.e666666666666p-1%float d e a in
        history (ingest none095 now w) = history w).
Proof.
  intros accepted. split; [|split; [|split; [|split]]].
  - intros H. apply isValidGesture_true in H.
    rewrite ingest_history, H. apply keepLast20_front.
  - intros H. rewrite ingest_history.
    destruct (App.isValidGesture c) eqn:E; [|reflexivity].
    apply isValidGesture_true in E. contradiction.
  - reflexivity.
  - reflexivity.
  - reflexivity.
Qed.

(** C2 at a ["Fist"] with confidence 0.61 and at a ["None"] with 0.95,
    ingested into the empty history. *)
Lemma C2_acceptance_policy_witness :
  history (ingest Sample.fist 1000 initial) = [mkHistoryItem 1000 Sample.fist]
  /\ history (ingest Sample.none 1000 initial) = [].
Proof.
  split.
  - apply (proj1 (C2_acceptance_policy Sample.fist 1000 initial)).
    split; [discriminate | split; [discriminate | reflexivity]].
  - apply (proj1 (proj2 (C2_acceptance_policy Sample.none 1000 initial))).
    intros [H _]. apply H. reflexivity.
Defined.

(** The policy with the lowercase labels ["none"] and ["error"] is not the
    one of the code: a classification labelled ["none"] with confidence 0.95
    fails that policy and is added to the history all the same. *)
Lemma C2_lowercase_counterexample :
  let c := mkGestureResponse "none" 0x1.e666666666666p-1%float
                             "No hand." "?" None in
  ~ (gesture c <> "none" /\ gesture c <> "error"
     /\ Js.gt (confidence c) threshold = true)
  /\ history (ingest c 1000 initial) = [mkHistoryItem 1000 c]
  /\ history (ingest c 1000 initial) <> history initial.
Proof.
  intros c. split; [|split].
  - intros [H _]. apply H. reflexivity.
  - reflexivity.
  - discriminate.
Qed.

(* ----------------------------------------------------------------- *)
(** ** What each handler leaves alone *)

Lemma handleCapture_begin_dropped (img : string) (w : World) :
  isProcessingRef w = true -> App.handleCapture_begin img w = w.
Proof. intros H. unfold App.handleCapture_begin. rewrite H. reflexivity. Qed.

Lemma handleCapture_begin_issued (img : string) (w : World) :
  isProcessingRef w = false ->
  App.handleCapture_begin img w
  = setPending (pending w ++ [GeminiService.analyzeGesture_request img])
      (setErrorMsg None (setIsProcessing true (setIsProcessingRef true w))).
Proof. intros H. unfold App.handleCapture_begin. rewrite H. reflexivity. Qed.

(** [handleCapture], up to its [await], touches neither the phase, the
    current result, the history, the camera nor the timer. *)
Lemma handleCapture_begin_frame (img : string) (w : World) :
  let w' := App.handleCapture_begin img w in
  appState w' = appState w /\ currentResult w' = currentResult w
  /\ history w' = history w /\ streamActive w' = streamActive w
  /\ interval w' = interval w /\ videoRef w' = videoRef w
  /\ canvasRef w' = canvasRef w /\ permissionDenied w' = permissionDenied w.
Proof.
  unfold App.handleCapture_begin. destruct (isProcessingRef w); simpl; tauto.
Qed.

(** [captureFrame] either does nothing or calls [onCapture] on a picture. *)
Lemma captureFrame_cases (w : World) :
  captureFrame w = w
  \/ exists img,
      appState w = SCANNING /\ streamActive w = true
      /\ captureFrame w = App.handleCapture_begin img w.
Proof.
  unfold captureFrame, WebcamCapture.captureFrame, WebcamCapture.isScanning.
  destruct (appState w) eqn:Ea; simpl; auto.
  destruct (videoRef w) as [video|]; simpl; auto.
  destruct (canvasRef w) as [canvas|]; simpl; auto.
  destruct (streamActive w) eqn:Es; simpl; auto.
  destruct (context2d canvas && (0 <? videoWidth video)%Z
            && (0 <? videoHeight video)%Z); auto.
  right. exists (picture video). auto.
Qed.

Lemma captureFrame_not_scanning (w : World) :
  appState w <> SCANNING -> captureFrame w = w.
Proof.
  intros H. destruct (captureFrame_cases w) as [E|(img & Ea & _)];
    [exact E | contradiction].
Qed.

(** The capture-loop effect: the timer is live exactly when scanning, and
    the rest of the state is that of the immediate capture. *)
Lemma captureLoop_eq (w : World) :
  WebcamCapture.captureLoop App.handleCapture_begin w
  = if WebcamCapture.isScanning w
    then setIntervalLive true (captureFrame (setIntervalLive false w))
    else setIntervalLive false w.
Proof. reflexivity. Qed.

Lemma commit_cases (before after : World) :
  commit before after = after
  \/ commit before after = WebcamCapture.captureLoop App.handleCapture_begin after.
Proof.
  unfold commit, WebcamCapture.commit.
  destruct (_ || _); auto.
Qed.

(* ----------------------------------------------------------------- *)
(** ** The invariant of the event loop *)

Lemma Invariant_ext (w w' : World) :
  pending w' = pending w -> isProcessingRef w' = isProcessingRef w ->
  history w' = history w -> Invariant w -> Invariant w'.
Proof.
  unfold Invariant, guardCount. intros -> -> ->. tauto.
Qed.

Lemma Invariant_initial : Invariant initial.
Proof. unfold Invariant, guardCount. simpl. lia. Qed.

Lemma Invariant_handleCapture_begin (img : string) (w : World) :
  Invariant w -> Invariant (App.handleCapture_begin img w).
Proof.
  unfold Invariant, guardCount, App.handleCapture_begin.
  destruct (isProcessingRef w) eqn:E; simpl; [rewrite E; tauto|].
  rewrite length_app. simpl. lia.
Qed.

Lemma Invariant_captureFrame (w : World) :
  Invariant w -> Invariant (captureFrame w).
Proof.
  intros H. destruct (captureFrame_cases w) as [->|(img & _ & _ & ->)];
    [exact H | apply Invariant_handleCapture_begin, H].
Qed.

Lemma Invariant_captureLoop (w : World) :
  Invariant w -> Invariant (WebcamCapture.captureLoop App.handleCapture_begin w).
Proof.
  intros H. rewrite captureLoop_eq.
  destruct (WebcamCapture.isScanning w).
  - eapply Invariant_ext; [| | |apply Invariant_captureFrame];
      [reflexivity | reflexivity | reflexivity |].
    eapply Invariant_ext; [| | |exact H]; reflexivity.
  - eapply Invariant_ext; [| | |exact H]; reflexivity.
Qed.

Lemma Invariant_commit (before after : World) :
  Invariant after -> Invariant (commit before after).
Proof.
  intros H. destruct (commit_cases before after) as [->| ->];
    [exact H | apply Invariant_captureLoop, H].
Qed.

Lemma Invariant_toggleScanning (w : World) :
  Invariant w -> Invariant (App.toggleScanning w).
Proof.
  intros H. unfold App.toggleScanning.
  destruct (AppState_eqb (appState w) SCANNING);
    (eapply Invariant_ext; [| | |exact H]; reflexivity).
Qed.

Lemma Invariant_startCamera settled (w : World) :
  Invariant w -> Invariant (WebcamCapture.startCamera App.handleError settled w).
Proof.
  intros H. unfold WebcamCapture.startCamera.
  destruct settled as [stream|err].
  - destruct (negb _); [|exact H].
    eapply Invariant_ext; [| | |exact H]; reflexivity.
  - eapply Invariant_ext; [| | |exact H]; reflexivity.
Qed.

(** Under the invariant a pending call is the only one, and the guard is
    set. *)
Lemma pending_single (w : World) (i : nat) (p : string) :
  Invariant w -> nth_error (pending w) i = Some p ->
  i = 0 /\ pending w = [p] /\ isProcessingRef w = true.
Proof.
  unfold Invariant, guardCount. intros [H _] Hn.
  destruct (isProcessingRef w).
  - destruct (pending w) as [|q [|q' l]]; simpl in H; try discriminate.
    destruct i as [|i]; simpl in Hn.
    + injection Hn as ->. auto.
    + destruct i; discriminate.
  - destruct (pending w); [destruct i|]; discriminate.
Qed.

Lemma handleCapture_resume_guard awaited now (w : World) :
  let w' := App.handleCapture_resume awaited now w in
  isProcessingRef w' = false /\ isProcessing w' = false
  /\ pending w' = pending w /\ appState w' = appState w
  /\ interval w' = interval w /\ errorMsg w' = errorMsg w.
Proof.
  unfold App.handleCapture_resume.
  destruct awaited as [r|e]; [destruct (App.isValidGesture r)|]; simpl; tauto.
Qed.

Lemma handleCapture_resume_history_bound awaited now (w : World) :
  length (history w) <= 20 ->
  length (history (App.handleCapture_resume awaited now w)) <= 20.
Proof.
  intros H. destruct awaited as [r|e]; [|exact H].
  change (length (history (ingest r now w)) <= 20).
  rewrite ingest_history. destruct (App.isValidGesture r); [|exact H].
  apply slice0_length.
Qed.

Lemma Invariant_step (JSON_parse : Parser) (w : World) (e : Event) :
  Invariant w -> Invariant (step JSON_parse w e).
Proof.
  intros H. destruct e as [| |i settled now|settled|video canvas]; simpl.
  - destruct (App.buttonDisabled w); [exact H|].
    apply Invariant_commit, Invariant_toggleScanning, H.
  - unfold WebcamCapture.intervalFires.
    destruct (interval w); [apply Invariant_captureFrame, H | exact H].
  - destruct (nth_error (pending w) i) as [p|] eqn:Hn; [|exact H].
    destruct (pending_single _ H Hn) as (-> & Hp & _).
    rewrite Hp. simpl.
    set (w1 := setPending [] w).
    destruct (handleCapture_resume_guard
                (GeminiService.analyzeGesture JSON_parse settled) now w1)
      as (Hg & _ & Hq & _).
    split.
    + unfold guardCount. rewrite Hg, Hq. reflexivity.
    + apply handleCapture_resume_history_bound. apply H.
  - apply Invariant_commit, Invariant_startCamera, H.
  - eapply Invariant_ext; [| | |exact H]; reflexivity.
Qed.

Lemma Invariant_run (JSON_parse : Parser) (es : list Event) (w : World) :
  Invariant w -> Invariant (run JSON_parse w es).
Proof.
  revert w. induction es as [|e es IH]; intros w H; [exact H|].
  apply IH, Invariant_step, H.
Qed.

(* ----------------------------------------------------------------- *)
(** ** While the guard is set *)

Lemma captureFrame_guarded (w : World) :
  isProcessingRef w = true -> captureFrame w = w.
Proof.
  intros H. destruct (captureFrame_cases w) as [E|(img & _ & _ & E)];
    rewrite E; [reflexivity | apply handleCapture_begin_dropped, H].
Qed.

Lemma captureLoop_guarded (w : World) :
  isProcessingRef w = true ->
  WebcamCapture.captureLoop App.handleCapture_begin w
  = setIntervalLive (WebcamCapture.isScanning w) w.
Proof.
  intros H. rewrite captureLoop_eq.
  destruct (WebcamCapture.isScanning w); [|reflexivity].
  rewrite captureFrame_guarded by exact H. reflexivity.
Qed.

Lemma commit_guarded (before after : World) :
  isProcessingRef after = true ->
  isProcessingRef (commit before after) = true
  /\ pending (commit before after) = pending after.
Proof.
  intros H. destruct (commit_cases before after) as [->| ->]; [auto|].
  rewrite captureLoop_guarded by exact H. auto.
Qed.

Lemma step_guarded (JSON_parse : Parser) (w : World) (e : Event) :
  isProcessingRef w = true ->
  (forall i settled now, e <> Settle i settled now) ->
  isProcessingRef (step JSON_parse w e) = true
  /\ pending (step JSON_parse w e) = pending w.
Proof.
  intros H He. destruct e as [| |i settled now|settled|video canvas]; simpl.
  - destruct (App.buttonDisabled w); [auto|].
    assert (Ht : isProcessingRef (App.toggleScanning w) = true
                 /\ pending (App.toggleScanning w) = pending w).
    { unfold App.toggleScanning.
      destruct (AppState_eqb (appState w) SCANNING); auto. }
    destruct Ht as [Hg Hp].
    destruct (commit_guarded w _ Hg) as [-> ->]. auto.
  - unfold WebcamCapture.intervalFires.
    destruct (interval w); [|auto].
    fold captureFrame. rewrite captureFrame_guarded by exact H. auto.
  - exfalso. exact (He i settled now eq_refl).
  - assert (Ht : isProcessingRef
                   (WebcamCapture.startCamera App.handleError settled w) = true
                 /\ pending (WebcamCapture.startCamera App.handleError settled w)
                    = pending w).
    { unfold WebcamCapture.startCamera.
      destruct settled; [destruct (negb _)|]; auto. }
    destruct Ht as [Hg Hp].
    destruct (commit_guarded w _ Hg) as [-> ->]. auto.
  - auto.
Qed.

Lemma step_Tick_guarded (JSON_parse : Parser) (w : World) :
  isProcessingRef w = true -> step JSON_parse w Tick = w.
Proof.
  intros H. simpl. unfold WebcamCapture.intervalFires.
  destruct (interval w); [|reflexivity].
  apply captureFrame_guarded, H.
Qed.

(* ----------------------------------------------------------------- *)
(** ** C1: the single-flight guard *)

(** C1.  In every state the page reaches, at most one call of the remote
    model is outstanding, and one is outstanding exactly when
    [isProcessingRef] is set.  A capture delivered while the guard is set is
    dropped: [handleCapture] returns the state as it was (no call is issued,
    nothing is updated, nothing is queued), so a run with the tick and a run
    without it are the same run.  A capture delivered while the guard is
    clear sets the guard and issues the one call.  The guard stays set under
    every event other than the settlement of that call, and the settlement
    clears it once the result is the current result, whether the gateway
    returned the reply of the model or its fallback. *)
Theorem C1_single_flight (JSON_parse : Parser) (es : list Event)
        (img : string) (w0 : World) :
  let w := run JSON_parse initial es in
  length (pending w) <= 1
  /\ (isProcessingRef w = true <-> length (pending w) = 1)
  /\ (isProcessingRef w0 = true ->
      App.handleCapture_begin img w0 = w0
      /\ step JSON_parse w0 Tick = w0
      /\ forall es', run JSON_parse w0 (Tick :: es') = run JSON_parse w0 es')
  /\ (isProcessingRef w0 = false ->
      let w' := App.handleCapture_begin img w0 in
      isProcessingRef w' = true
      /\ pending w'
         = (pending w0 ++ [GeminiService.analyzeGesture_request img])%list)
  /\ (isProcessingRef w = true ->
      (forall e, (forall i settled now, e <> Settle i settled now) ->
                 isProcessingRef (step JSON_parse w e) = true
                 /\ pending (step JSON_parse w e) = pending w)
      /\ forall settled now,
          let w' := step JSON_parse w (Settle 0 settled now) in
          isProcessingRef w' = false /\ pending w' = []
          /\ exists r,
              GeminiService.analyzeGesture JSON_parse settled = Js.Normal r
              /\ currentResult w' = Some r).
Proof.
  intros w.
  assert (Hinv : Invariant w) by apply Invariant_run, Invariant_initial.
  assert (Hlen : length (pending w) = guardCount w) by apply Hinv.
  unfold guardCount in Hlen.
  split; [|split; [|split; [|split]]].
  - destruct (isProcessingRef w); lia.
  - destruct (isProcessingRef w); split; intros; try lia; congruence.
  - intros H. split; [|split].
    + apply handleCapture_begin_dropped, H.
    + apply step_Tick_guarded, H.
    + intros es'. unfold run. simpl fold_left.
      change (WebcamCapture.intervalFires App.handleCapture_begin w0)
        with (step JSON_parse w0 Tick).
      rewrite step_Tick_guarded by exact H. reflexivity.
  - intros H. rewrite handleCapture_begin_issued by exact H. auto.
  - intros H. split.
    + intros e He. apply step_guarded; assumption.
    + intros settled now. rewrite H in Hlen.
      destruct (pending w) as [|p [|q l]] eqn:Hp; try discriminate.
      rewrite (step_Settle JSON_parse w 0 settled now (p := p))
        by (rewrite Hp; reflexivity).
      rewrite Hp. simpl remove_nth.
      destruct (handleCapture_resume_guard
                  (GeminiService.analyzeGesture JSON_parse settled) now
                  (setPending [] w)) as (Hg & _ & Hq & _).
      split; [exact Hg|]. split; [exact Hq|].
      destruct (analyzeGesture_total JSON_parse settled) as [r Hr].
      exists r. split; [exact Hr|]. rewrite Hr. apply ingest_currentResult.
Qed.

(** C1 on the page right after Start, with the first request in flight:
    the next tick is dropped and the settlement clears the guard; and on the
    initial page, where the guard is clear, a capture sets it. *)
Lemma C1_single_flight_witness :
  let w := run Sample.JSON_parse initial Sample.started in
  isProcessingRef w = true
  /\ step Sample.JSON_parse w Tick = w
  /\ isProcessingRef
       (step Sample.JSON_parse w (Settle 0 (Sample.reply Sample.fist_text) 1000))
     = false
  /\ isProcessingRef (App.handleCapture_begin (picture Sample.video) initial)
     = true.
Proof.
  intros w.
  destruct (C1_single_flight Sample.JSON_parse Sample.started
                             (picture Sample.video) w)
    as (_ & _ & Hdrop & _ & Hsettle).
  destruct (C1_single_flight Sample.JSON_parse Sample.started
                             (picture Sample.video) initial)
    as (_ & _ & _ & Hissue & _).
  split; [reflexivity|]. split; [|split].
  - apply Hdrop. reflexivity.
  - apply Hsettle. reflexivity.
  - apply Hissue. reflexivity.
Defined.

(* ----------------------------------------------------------------- *)
(** ** C3: the bounded history *)

Lemma ingestAll_history_bound (cs : list (GestureResponse * Z)) (w : World) :
  length (history w) <= 20 -> length (history (ingestAll cs w)) <= 20.
Proof.
  revert w. induction cs as [|[c now] cs IH]; intros w H; [exact H|].
  apply IH. apply handleCapture_resume_history_bound, H.
Qed.

(** C3.  The history never holds more than 20 items: not in any state the
    page reaches, and not after any sequence of ingest operations that
    starts from an empty history.  An accepted classification is put at the
    front, before the items already there, which keep their order; when the
    history holds fewer than 20 items all of them are kept, and when it
    holds 20 exactly the last (oldest) one is dropped. *)
Theorem C3_bounded_history (JSON_parse : Parser) (es : list Event)
        (cs : list (GestureResponse * Z)) (w0 : World)
        (c : GestureResponse) (now : Z) (w : World) :
  length (history (run JSON_parse initial es)) <= 20
  /\ (history w0 = [] -> length (history (ingestAll cs w0)) <= 20)
  /\ (App.isValidGesture c = true ->
      history (ingest c now w) = mkHistoryItem now c :: firstn 19 (history w)
      /\ (length (history w) < 20 ->
          history (ingest c now w) = mkHistoryItem now c :: history w)
      /\ (length (history w) = 20 ->
          history (ingest c now w)
          = mkHistoryItem now c :: removelast (history w))).
Proof.
  split; [|split].
  - apply (Invariant_run JSON_parse es Invariant_initial).
  - intros H. apply ingestAll_history_bound. rewrite H. simpl. lia.
  - intros H. rewrite ingest_history, H, keepLast20_front.
    split; [reflexivity|]. split; intros Hl.
    + rewrite firstn_all2 by lia. reflexivity.
    + rewrite (firstn_removelast (history w) (n := 19)) by exact Hl.
      reflexivity.
Qed.

(** C3 at the empty history and at a history of 20 items. *)
Lemma C3_bounded_history_witness :
  let full := setHistory (fun _ => repeat (mkHistoryItem 0 Sample.none) 20)
                         initial in
  length (history (ingestAll [(Sample.fist, 1000%Z); (Sample.none, 2000%Z)]
                             initial)) <= 20
  /\ history (ingest Sample.fist 1000 initial)
     = [mkHistoryItem 1000 Sample.fist]
  /\ history (ingest Sample.fist 1000 full)
     = mkHistoryItem 1000 Sample.fist
       :: repeat (mkHistoryItem 0 Sample.none) 19.
Proof.
  intros full.
  destruct (C3_bounded_history Sample.JSON_parse []
              [(Sample.fist, 1000%Z); (Sample.none, 2000%Z)] initial
              Sample.fist 1000 initial) as (_ & Hall & Hone).
  destruct (C3_bounded_history Sample.JSON_parse [] [] initial
              Sample.fist 1000 full) as (_ & _ & Hfull).
  split; [|split].
  - apply Hall. reflexivity.
  - destruct (Hone eq_refl) as (_ & Hfront & _).
    apply Hfront. unfold initial. simpl. lia.
  - destruct (Hfull eq_refl) as (_ & _ & Hevict).
    apply Hevict. reflexivity.
Defined.

(* ----------------------------------------------------------------- *)
(** ** C4: the fallback of the gateway *)

(** C4 (as the code has it).  [analyzeGesture] never throws: whatever the
    image sent and however the call of the remote model settles, its promise
    resolves with a classification.  When the call fails (the request is
    rejected, the reply has no text or an empty text, or the text does not
    parse) that classification is the fallback of the [catch] block, whose
    label is ["Error"] with a capital, whose confidence is 0, whose
    description is ["Failed to analyze frame."] and whose emoji is the
    warning sign followed by the variation selector U+FE0F (in UTF-8 the
    six bytes E2 9A A0 EF B8 8F). *)
Theorem C4_fallback_on_failure (JSON_parse : Parser)
        (settled : Js.Completion GeminiService.GenerateContentResponse) :
  (exists r, GeminiService.analyzeGesture JSON_parse settled = Js.Normal r)
  /\ (oracleFailed JSON_parse settled = true ->
      GeminiService.analyzeGesture JSON_parse settled
      = Js.Normal (mkGestureResponse "Error" 0%float
                                     "Failed to analyze frame." "⚠️" None))
  /\ map nat_of_ascii (list_ascii_of_string (emoji GeminiService.fallback))
     = [226; 154; 160; 239; 184; 143]
  /\ (forall e,
        GeminiService.analyzeGesture JSON_parse (Js.Thrown e)
        = Js.Normal GeminiService.fallback)
  /\ GeminiService.analyzeGesture
       JSON_parse (Js.Normal (GeminiService.mkResponse None))
     = Js.Normal GeminiService.fallback
  /\ GeminiService.analyzeGesture
       JSON_parse (Js.Normal (GeminiService.mkResponse (Some EmptyString)))
     = Js.Normal GeminiService.fallback
  /\ (forall t e,
        JSON_parse t = Js.Thrown e ->
        GeminiService.analyzeGesture
          JSON_parse (Js.Normal (GeminiService.mkResponse (Some t)))
        = Js.Normal GeminiService.fallback).
Proof.
  split; [apply analyzeGesture_total|].
  split; [apply analyzeGesture_failed|].
  split; [reflexivity|].
  split; [reflexivity|]. split; [reflexivity|]. split; [reflexivity|].
  intros t e H. apply analyzeGesture_failed. unfold oracleFailed. simpl.
  rewrite H. apply orb_true_r.
Qed.

(** C4 at a rejected request and at a reply that is not JSON. *)
Lemma C4_fallback_on_failure_witness :
  GeminiService.analyzeGesture
    Sample.JSON_parse (Js.Thrown (Js.Rejection "fetch failed"))
  = Js.Normal GeminiService.fallback
  /\ GeminiService.analyzeGesture Sample.JSON_parse (Sample.reply "not json")
     = Js.Normal GeminiService.fallback.
Proof.
  split.
  - apply (proj1 (proj2 (C4_fallback_on_failure
                           Sample.JSON_parse
                           (Js.Thrown (Js.Rejection "fetch failed"))))).
    reflexivity.
  - apply (proj1 (proj2 (C4_fallback_on_failure
                           Sample.JSON_parse (Sample.reply "not json")))).
    reflexivity.
Defined.

(** On a rejected request the gateway does not return the classification
    labelled ["error"] in lowercase with the bare warning sign. *)
Lemma C4_lowercase_counterexample :
  GeminiService.analyzeGesture
    Sample.JSON_parse (Js.Thrown (Js.Rejection "fetch failed"))
  <> Js.Normal (mkGestureResponse "error" 0%float
                                  "Failed to analyze frame." "⚠" None).
Proof. intros H. injection H as H. discriminate H. Qed.

(* ----------------------------------------------------------------- *)
(** ** C5: the current result *)

(** C5.  When a pending call settles, the current result becomes the
    classification [analyzeGesture] returned for it; ingesting a
    classification sets the current result to it whether or not it is added
    to the history, and so for the label ["None"] and for the fallback of
    the gateway, which are not added. *)
Theorem C5_current_result (JSON_parse : Parser) (w : World) (i : nat)
        (settled : Js.Completion GeminiService.GenerateContentResponse)
        (now : Z) (c : GestureResponse) :
  (i < length (pending w) ->
   exists r,
     GeminiService.analyzeGesture JSON_parse settled = Js.Normal r
     /\ currentResult (step JSON_parse w (Settle i settled now)) = Some r)
  /\ currentResult (ingest c now w) = Some c
  /\ (let none := withGesture "None" c in
      currentResult (ingest none now w) = Some none
      /\ history (ingest none now w) = history w)
  /\ (currentResult (ingest GeminiService.fallback now w)
      = Some GeminiService.fallback
      /\ history (ingest GeminiService.fallback now w) = history w).
Proof.
  split; [|split; [|split]].
  - intros Hi. apply nth_error_Some in Hi.
    destruct (nth_error (pending w) i) as [p|] eqn:Hn; [|congruence].
    destruct (analyzeGesture_total JSON_parse settled) as [r Hr].
    exists r. split; [exact Hr|].
    rewrite (step_Settle JSON_parse w i settled now Hn), Hr.
    apply ingest_currentResult.
  - apply ingest_currentResult.
  - split; [apply ingest_currentResult|].
    rewrite ingest_history. reflexivity.
  - split; [apply ingest_currentResult|].
    rewrite ingest_history. reflexivity.
Qed.

(** C5 on the page right after Start, whose request is answered by a
    reply that says ["None"]. *)
Lemma C5_current_result_witness :
  let w := run Sample.JSON_parse initial Sample.started in
  exists r,
    GeminiService.analyzeGesture
      Sample.JSON_parse (Sample.reply Sample.none_text) = Js.Normal r
    /\ currentResult
         (step Sample.JSON_parse w (Settle 0 (Sample.reply Sample.none_text) 1000))
       = Some r.
Proof.
  intros w.
  apply (proj1 (C5_current_result Sample.JSON_parse w 0
                  (Sample.reply Sample.none_text) 1000 Sample.none)).
  unfold w. simpl. lia.
Defined.

(* ----------------------------------------------------------------- *)
(** ** C10: the labels are compared exactly *)

Lemma isValidGesture_needs_confidence (c : GestureResponse) :
  Js.gt (confidence c) threshold = false -> App.isValidGesture c = false.
Proof.
  unfold App.isValidGesture. intros H.
  change (Js.gt (confidence c) threshold) with
    (Js.gt (confidence c) 0x1.3333333333333p-1%float) in H.
  rewrite H. apply andb_false_r.
Qed.

(** C10 (as the code has it).  The history condition compares the label
    with exactly ["None"] and ["Error"]: a classification with any other
    label and a confidence above 0.6 is added to the history, and so are
    the lowercase spellings ["none"] and ["error"]; with one of the two
    labels it is not added.  The fallback of the gateway is labelled
    exactly ["Error"] and is not added; it would not be added under any
    other label either, because its confidence is 0. *)
Theorem C10_exact_labels (c : GestureResponse) (label : string) (now : Z)
        (w : World) :
  (gesture c <> "None" -> gesture c <> "Error" ->
   Js.gt (confidence c) threshold = true ->
   history (ingest c now w) = mkHistoryItem now c :: firstn 19 (history w))
  /\ (Js.gt (confidence c) threshold = true ->
      history (ingest (withGesture "none" c) now w)
      = mkHistoryItem now (withGesture "none" c) :: firstn 19 (history w)
      /\ history (ingest (withGesture "error" c) now w)
         = mkHistoryItem now (withGesture "error" c) :: firstn 19 (history w))
  /\ (gesture c = "None" \/ gesture c = "Error" ->
      history (ingest c now w) = history w)
  /\ gesture GeminiService.fallback = "Error"
  /\ history (ingest GeminiService.fallback now w) = history w
  /\ history (ingest (withGesture label GeminiService.fallback) now w)
     = history w.
Proof.
  split; [|split; [|split; [|split; [|split]]]].
  - intros H1 H2 H3. rewrite ingest_history.
    rewrite (proj2 (isValidGesture_true c)) by auto.
    apply keepLast20_front.
  - intros H. split; rewrite ingest_history.
    + rewrite (proj2 (isValidGesture_true (withGesture "none" c)));
        [apply keepLast20_front|].
      split; [discriminate | split; [discriminate | exact H]].
    + rewrite (proj2 (isValidGesture_true (withGesture "error" c)));
        [apply keepLast20_front|].
      split; [discriminate | split; [discriminate | exact H]].
  - intros H. rewrite ingest_history.
    destruct (App.isValidGesture c) eqn:E; [|reflexivity].
    apply isValidGesture_true in E. destruct E as (E1 & E2 & _).
    destruct H; contradiction.
  - reflexivity.
  - rewrite ingest_history. reflexivity.
  - rewrite ingest_history.
    rewrite isValidGesture_needs_confidence; reflexivity.
Qed.

(** C10 at the lowercase labels with confidence 0.95, and at ["None"]. *)
Lemma C10_exact_labels_witness :
  history (ingest (withGesture "none" Sample.none) 1000 initial)
  = [mkHistoryItem 1000 (withGesture "none" Sample.none)]
  /\ history (ingest (withGesture "Thumbs Up" Sample.none) 1000 initial)
     = [mkHistoryItem 1000 (withGesture "Thumbs Up" Sample.none)]
  /\ history (ingest Sample.none 1000 initial) = [].
Proof.
  destruct (C10_exact_labels Sample.none "error" 1000 initial)
    as (_ & Hlower & Hsentinel & _).
  destruct (C10_exact_labels (withGesture "Thumbs Up" Sample.none) "error"
                             1000 initial) as (Hother & _).
  split; [|split].
  - apply (proj1 (Hlower eq_refl)).
  - apply Hother; [discriminate | discriminate | reflexivity].
  - apply Hsentinel. left. reflexivity.
Defined.

(** The rejection of the fallback does not rest on its label: relabelled
    ["error"] in lowercase, which the history condition does not test for,
    it is still not added to the history. *)
Lemma C10_reliance_counterexample :
  let lower := withGesture "error" GeminiService.fallback in
  gesture lower <> "None" /\ gesture lower <> "Error"
  /\ App.isValidGesture lower = false
  /\ history (ingest lower 1000 initial) = history initial.
Proof.
  intros lower. split; [discriminate|]. split; [discriminate|].
  split; reflexivity.
Qed.

(* ----------------------------------------------------------------- *)
(** ** What the capture loop and the events leave alone *)

Lemma captureFrame_frame (w : World) :
  let w' := captureFrame w in
  appState w' = appState w /\ currentResult w' = currentResult w
  /\ history w' = history w /\ streamActive w' = streamActive w
  /\ interval w' = interval w
  /\ (errorMsg w = None -> errorMsg w' = None).
Proof.
  destruct (captureFrame_cases w) as [E|(img & _ & _ & E)];
    simpl; rewrite E; [tauto|].
  destruct (handleCapture_begin_frame img w) as (H1 & H2 & H3 & H4 & H5 & _).
  repeat (split; [assumption|]).
  unfold App.handleCapture_begin. destruct (isProcessingRef w); auto.
Qed.

Lemma captureLoop_frame (w : World) :
  let w' := WebcamCapture.captureLoop App.handleCapture_begin w in
  appState w' = appState w /\ currentResult w' = currentResult w
  /\ history w' = history w /\ streamActive w' = streamActive w
  /\ interval w' = WebcamCapture.isScanning w
  /\ (errorMsg w = None -> errorMsg w' = None).
Proof.
  simpl. rewrite captureLoop_eq.
  destruct (WebcamCapture.isScanning w); [|simpl; tauto].
  destruct (captureFrame_frame (setIntervalLive false w))
    as (H1 & H2 & H3 & H4 & _ & H6).
  simpl in *. tauto.
Qed.

Lemma commit_frame (before after : World) :
  let w' := commit before after in
  appState w' = appState after /\ currentResult w' = currentResult after
  /\ history w' = history after /\ streamActive w' = streamActive after
  /\ (errorMsg after = None -> errorMsg w' = None).
Proof.
  destruct (commit_cases before after) as [E|E]; simpl; rewrite E; [tauto|].
  destruct (captureLoop_frame after) as (H1 & H2 & H3 & H4 & _ & H6). tauto.
Qed.

(** After a commit in which the phase changed, the timer is live exactly
    when the page is scanning. *)
Lemma commit_interval (before after : World) :
  WebcamCapture.isScanning before <> WebcamCapture.isScanning after ->
  interval (commit before after) = WebcamCapture.isScanning after.
Proof.
  intros H. unfold commit, WebcamCapture.commit.
  destruct (captureLoop_frame after) as (_ & _ & _ & _ & Hi & _).
  destruct (WebcamCapture.isScanning before),
    (WebcamCapture.isScanning after); try congruence; simpl; exact Hi.
Qed.

Lemma commit_not_scanning (before after : World) :
  appState after <> SCANNING ->
  commit before after = after
  \/ commit before after = setIntervalLive false after.
Proof.
  intros H. destruct (commit_cases before after) as [E|E]; [auto|].
  right. rewrite E, captureLoop_eq. unfold WebcamCapture.isScanning.
  destruct (appState after); [reflexivity | contradiction | reflexivity].
Qed.

Lemma startCamera_frame settled (w : World) :
  let w' := WebcamCapture.startCamera App.handleError settled w in
  currentResult w' = currentResult w /\ history w' = history w
  /\ pending w' = pending w /\ isProcessingRef w' = isProcessingRef w
  /\ interval w' = interval w
  /\ (appState w' = appState w \/ appState w' = ERROR).
Proof.
  unfold WebcamCapture.startCamera.
  destruct settled; [destruct (negb _)|]; simpl; tauto.
Qed.

(** The history after one event. *)
Lemma step_history (JSON_parse : Parser) (w : World) (e : Event) :
  history (step JSON_parse w e)
  = match e with
    | Settle i settled now =>
        match nth_error (pending w) i,
              GeminiService.analyzeGesture JSON_parse settled with
        | Some _, Js.Normal r =>
            if App.isValidGesture r
            then App.keepLast20 now r (history w)
            else history w
        | _, _ => history w
        end
    | _ => history w
    end.
Proof.
  destruct e as [| |i settled now|settled|video canvas]; simpl.
  - destruct (App.buttonDisabled w); [reflexivity|].
    destruct (commit_frame w (App.toggleScanning w)) as (_ & _ & -> & _).
    unfold App.toggleScanning.
    destruct (AppState_eqb (appState w) SCANNING); reflexivity.
  - unfold WebcamCapture.intervalFires.
    destruct (interval w); [apply captureFrame_frame | reflexivity].
  - destruct (nth_error (pending w) i); [|reflexivity].
    destruct (GeminiService.analyzeGesture JSON_parse settled) as [r|err];
      [|reflexivity].
    apply (ingest_history r now (setPending (remove_nth i (pending w)) w)).
  - destruct (commit_frame
                w (WebcamCapture.startCamera App.handleError settled w))
      as (_ & _ & -> & _).
    apply startCamera_frame.
  - reflexivity.
Qed.

(* ----------------------------------------------------------------- *)
(** ** C9: Start and Stop leave the history alone *)

(** C9.  [toggleScanning] does not touch the history, in either direction,
    and neither does the click that calls it together with the render and
    the capture it causes; so the history is the same after any number of
    stop/start cycles.  The only event that changes the history is the
    settlement of a pending call whose classification passes the history
    condition, and the change is the insertion of that classification. *)
Theorem C9_history_frame (JSON_parse : Parser) (w : World) (e : Event)
        (n : nat) :
  history (App.toggleScanning w) = history w
  /\ history (step JSON_parse w Click) = history w
  /\ history (run JSON_parse w (repeat Click n)) = history w
  /\ (history (step JSON_parse w e) <> history w ->
      exists i settled now r,
        e = Settle i settled now
        /\ i < length (pending w)
        /\ GeminiService.analyzeGesture JSON_parse settled = Js.Normal r
        /\ App.isValidGesture r = true
        /\ history (step JSON_parse w e) = App.keepLast20 now r (history w)).
Proof.
  split; [|split; [|split]].
  - unfold App.toggleScanning.
    destruct (AppState_eqb (appState w) SCANNING); reflexivity.
  - apply (step_history JSON_parse w Click).
  - revert w. induction n as [|n IH]; intros w; [reflexivity|].
    simpl repeat. unfold run in *. simpl fold_left.
    change (history (fold_left (step JSON_parse) (repeat Click n)
                               (step JSON_parse w Click)) = history w).
    rewrite IH. apply (step_history JSON_parse w Click).
  - intros H. rewrite step_history in H |- *.
    destruct e as [| |i settled now|settled|video canvas]; try congruence.
    destruct (nth_error (pending w) i) as [p|] eqn:Hn; [|congruence].
    destruct (GeminiService.analyzeGesture JSON_parse settled) as [r|err]
      eqn:Hr; [|congruence].
    destruct (App.isValidGesture r) eqn:Hv; [|congruence].
    exists i, settled, now, r.
    split; [reflexivity|]. split; [apply nth_error_Some; congruence|].
    split; [exact Hr|]. split; [exact Hv | reflexivity].
Qed.

(** C9 on a page that holds one item: Stop, Start, Stop keep it; the
    settlement that added it is the event that changed the history. *)
Lemma C9_history_frame_witness :
  let w0 := run Sample.JSON_parse initial Sample.started in
  let e := Settle 0 (Sample.reply Sample.fist_text) 1000 in
  let w := step Sample.JSON_parse w0 e in
  history (run Sample.JSON_parse w [Click; Click; Click])
  = [mkHistoryItem 1000 Sample.fist]
  /\ exists i settled now r,
      e = Settle i settled now
      /\ i < length (pending w0)
      /\ GeminiService.analyzeGesture Sample.JSON_parse settled = Js.Normal r
      /\ App.isValidGesture r = true
      /\ history (step Sample.JSON_parse w0 e)
         = App.keepLast20 now r (history w0).
Proof.
  intros w0 e w. split.
  - apply (proj1 (proj2 (proj2 (C9_history_frame Sample.JSON_parse w e 3)))).
  - apply (proj2 (proj2 (proj2 (C9_history_frame Sample.JSON_parse w0 e 0)))).
    discriminate.
Defined.

(* ----------------------------------------------------------------- *)
(** ** C7: what Start does *)

(** C7 (as the code has it).  [toggleScanning] called when the phase is not
    [SCANNING] sets the phase to [SCANNING] and clears the error message; it
    leaves the current result and the history as they are (the current
    result is cleared by Stop, not by Start).  The same holds of the click
    on an idle page together with the render and the immediate capture it
    causes, after which the timer is live.  Called when the phase is
    [SCANNING], [toggleScanning] is Stop: it sets the phase to [IDLE] and
    clears the current result. *)
Theorem C7_start (JSON_parse : Parser) (w : World) :
  (appState w <> SCANNING ->
   let w' := App.toggleScanning w in
   appState w' = SCANNING /\ errorMsg w' = None
   /\ currentResult w' = currentResult w /\ history w' = history w)
  /\ (appState w = IDLE ->
      let w' := step JSON_parse w Click in
      appState w' = SCANNING /\ errorMsg w' = None
      /\ currentResult w' = currentResult w /\ history w' = history w
      /\ interval w' = true)
  /\ (appState w = SCANNING ->
      let w' := App.toggleScanning w in
      appState w' = IDLE /\ currentResult w' = None
      /\ errorMsg w' = errorMsg w /\ history w' = history w).
Proof.
  split; [|split].
  - intros H. unfold App.toggleScanning.
    destruct (appState w); simpl; tauto.
  - intros H. simpl. unfold App.buttonDisabled. rewrite H. simpl.
    assert (Ht : App.toggleScanning w = setErrorMsg None (setAppState SCANNING w)).
    { unfold App.toggleScanning. rewrite H. reflexivity. }
    destruct (commit_frame w (App.toggleScanning w))
      as (H1 & H2 & H3 & _ & H5).
    rewrite H1, H2, H3, H5 by (rewrite Ht; reflexivity).
    rewrite commit_interval.
    + rewrite Ht. simpl. tauto.
    + unfold WebcamCapture.isScanning. rewrite Ht, H. simpl. discriminate.
  - intros H. unfold App.toggleScanning. rewrite H. simpl. tauto.
Qed.

(** C7 on the initial page and on the page right after Start. *)
Lemma C7_start_witness :
  appState (App.toggleScanning initial) = SCANNING
  /\ interval (step Sample.JSON_parse initial Click) = true
  /\ appState
       (App.toggleScanning (run Sample.JSON_parse initial Sample.started))
     = IDLE.
Proof.
  destruct (C7_start Sample.JSON_parse initial) as (Hstart & Hclick & _).
  destruct (C7_start Sample.JSON_parse
                     (run Sample.JSON_parse initial Sample.started))
    as (_ & _ & Hstop).
  split; [|split].
  - apply Hstart. discriminate.
  - apply Hclick. reflexivity.
  - apply Hstop. reflexivity.
Defined.

(** Start does not clear a held current result.  The user starts, stops
    while the first request is in flight, the reply arrives and becomes the
    current result of the idle page; Start then leaves it in place. *)
Lemma C7_stale_result_counterexample :
  let w := run Sample.JSON_parse initial
               (Sample.started
                ++ [Click; Settle 0 (Sample.reply Sample.fist_text) 1000]) in
  appState w = IDLE
  /\ currentResult w = Some Sample.fist
  /\ appState (App.toggleScanning w) = SCANNING
  /\ currentResult (App.toggleScanning w) = Some Sample.fist
  /\ currentResult (step Sample.JSON_parse w Click) <> None.
Proof.
  intros w. repeat (split; [reflexivity|]). discriminate.
Qed.

(* ----------------------------------------------------------------- *)
(** ** C8: the failure latch *)

Lemma step_ERROR (JSON_parse : Parser) (w : World) (e : Event) :
  appState w = ERROR -> appState (step JSON_parse w e) = ERROR.
Proof.
  intros H. destruct e as [| |i settled now|settled|video canvas]; simpl.
  - unfold App.buttonDisabled. rewrite H. exact H.
  - unfold WebcamCapture.intervalFires.
    destruct (interval w); [|exact H].
    exact (eq_trans (proj1 (captureFrame_frame w)) H).
  - destruct (nth_error (pending w) i); [|exact H].
    destruct (handleCapture_resume_guard
                (GeminiService.analyzeGesture JSON_parse settled) now
                (setPending (remove_nth i (pending w)) w))
      as (_ & _ & _ & -> & _).
    exact H.
  - destruct (commit_frame
                w (WebcamCapture.startCamera App.handleError settled w))
      as (-> & _).
    destruct (startCamera_frame settled w) as (_ & _ & _ & _ & _ & [E|E]);
      congruence.
  - exact H.
Qed.

Lemma run_ERROR (JSON_parse : Parser) (es : list Event) (w : World) :
  appState w = ERROR -> appState (run JSON_parse w es) = ERROR.
Proof.
  revert w. induction es as [|e es IH]; intros w H; [exact H|].
  apply IH, step_ERROR, H.
Qed.

Lemma step_Click_ERROR (JSON_parse : Parser) (w : World) :
  appState w = ERROR -> step JSON_parse w Click = w.
Proof. intros H. simpl. unfold App.buttonDisabled. rewrite H. reflexivity. Qed.

(** C8.  [handleError] called while the phase is [SCANNING] sets the phase
    to [ERROR] and records the message; so does the failure of the camera,
    which also stops the timer.  From then on the Start/Stop button is
    disabled: under every sequence of events the phase stays [ERROR], and a
    click leaves the whole state as it is.  (No event of the page resets
    the phase.) *)
Theorem C8_failure_latch (JSON_parse : Parser) (msg : string) (w : World)
        (err : Js.Exn) (es : list Event) :
  appState w = SCANNING ->
  (let w' := App.handleError msg w in
   appState w' = ERROR /\ errorMsg w' = Some msg
   /\ step JSON_parse w' Click = w'
   /\ appState (run JSON_parse w' es) = ERROR
   /\ step JSON_parse (run JSON_parse w' es) Click = run JSON_parse w' es)
  /\ (let w' := step JSON_parse w (UserMedia (Js.Thrown err)) in
      appState w' = ERROR
      /\ errorMsg w' = Some "Camera access denied or unavailable."
      /\ interval w' = false
      /\ step JSON_parse w' Click = w'
      /\ appState (run JSON_parse w' es) = ERROR
      /\ step JSON_parse (run JSON_parse w' es) Click = run JSON_parse w' es).
Proof.
  intros H. split.
  - cbv zeta. split; [reflexivity|]. split; [reflexivity|].
    split; [apply step_Click_ERROR; reflexivity|]. split.
    + apply run_ERROR. reflexivity.
    + apply step_Click_ERROR, run_ERROR. reflexivity.
  - set (after := WebcamCapture.startCamera
                    App.handleError (Js.Thrown err) w).
    assert (Hw : step JSON_parse w (UserMedia (Js.Thrown err))
                 = setIntervalLive false after).
    { simpl. unfold commit, WebcamCapture.commit, WebcamCapture.isScanning.
      fold after. rewrite H. reflexivity. }
    cbv zeta. rewrite Hw.
    split; [reflexivity|]. split; [reflexivity|]. split; [reflexivity|].
    split; [apply step_Click_ERROR; reflexivity|]. split.
    + apply run_ERROR. reflexivity.
    + apply step_Click_ERROR, run_ERROR. reflexivity.
Qed.

(** C8 on the page right after Start, when the camera then fails; the user
    clicks, the timer is due and the reply arrives, and the phase is still
    [ERROR]. *)
Lemma C8_failure_latch_witness :
  let w := run Sample.JSON_parse initial Sample.started in
  let w' := step Sample.JSON_parse w
                 (UserMedia (Js.Thrown (Js.Rejection "NotAllowedError"))) in
  appState w' = ERROR
  /\ appState
       (run Sample.JSON_parse w'
            [Click; Tick; Settle 0 (Sample.reply Sample.fist_text) 1000; Click])
     = ERROR.
Proof.
  intros w w'.
  destruct (C8_failure_latch Sample.JSON_parse "unused" w
              (Js.Rejection "NotAllowedError")
              [Click; Tick; Settle 0 (Sample.reply Sample.fist_text) 1000; Click]
              eq_refl) as (_ & H1 & _ & _ & _ & H2 & _).
  split; [exact H1 | exact H2].
Defined.

(* ----------------------------------------------------------------- *)
(** ** C6: stopping while a call is in flight *)

Lemma step_Click_scanning (JSON_parse : Parser) (w : World) :
  appState w = SCANNING ->
  step JSON_parse w Click
  = setIntervalLive false (setCurrentResult None (setAppState IDLE w)).
Proof.
  intros H. simpl.
  unfold App.buttonDisabled, App.toggleScanning, commit, WebcamCapture.commit,
    WebcamCapture.isScanning.
  rewrite H. reflexivity.
Qed.

(** What a page that is not scanning and has no timer keeps under an event
    that is not a click. *)
Lemma step_disarmed (JSON_parse : Parser) (w : World) (e : Event) :
  appState w <> SCANNING -> interval w = false -> isClick e = false ->
  let w' := step JSON_parse w e in
  appState w' <> SCANNING /\ interval w' = false
  /\ (pending w' = pending w
      \/ exists i, i < length (pending w)
                   /\ pending w' = remove_nth i (pending w))
  /\ (isSettle e = false ->
      pending w' = pending w /\ history w' = history w
      /\ currentResult w' = currentResult w
      /\ isProcessingRef w' = isProcessingRef w).
Proof.
  intros Ha Hi Hc. cbv zeta.
  destruct e as [| |i settled now|settled|video canvas].
  - discriminate.
  - assert (E : step JSON_parse w Tick = w)
      by (simpl; unfold WebcamCapture.intervalFires; rewrite Hi; reflexivity).
    rewrite E. kept.
  - destruct (nth_error (pending w) i) as [p|] eqn:Hn.
    + rewrite (step_Settle JSON_parse w i settled now Hn).
      destruct (handleCapture_resume_guard
                  (GeminiService.analyzeGesture JSON_parse settled) now
                  (setPending (remove_nth i (pending w)) w))
        as (_ & _ & Hq & Hs & Ht & _).
      rewrite Hs, Ht, Hq. simpl.
      split; [exact Ha|]. split; [exact Hi|]. split; [|discriminate].
      right. exists i. split; [|reflexivity].
      apply nth_error_Some. congruence.
    + assert (E : step JSON_parse w (Settle i settled now) = w)
        by (simpl; rewrite Hn; reflexivity).
      rewrite E. kept.
  - set (after := WebcamCapture.startCamera App.handleError settled w).
    change (step JSON_parse w (UserMedia settled)) with (commit w after).
    destruct (startCamera_frame settled w) as (H1 & H2 & H3 & H4 & H5 & H6).
    fold after in H1, H2, H3, H4, H5, H6.
    assert (Hn : appState after <> SCANNING)
      by (destruct H6 as [E|E]; rewrite E; [exact Ha | discriminate]).
    destruct (commit_not_scanning w after Hn) as [E|E]; rewrite E; simpl;
      rewrite ?H1, ?H2, ?H3, ?H4, ?H5, ?Hi; kept.
  - simpl. kept.
Qed.

Lemma run_disarmed (JSON_parse : Parser) (p : string) (es : list Event)
      (w : World) :
  appState w <> SCANNING -> interval w = false ->
  pending w = [p] \/ pending w = [] ->
  noClick es = true ->
  let w' := run JSON_parse w es in
  appState w' <> SCANNING /\ interval w' = false
  /\ (pending w' = [p] \/ pending w' = [])
  /\ (noSettle es = true ->
      pending w' = pending w /\ history w' = history w
      /\ currentResult w' = currentResult w
      /\ isProcessingRef w' = isProcessingRef w).
Proof.
  revert w. induction es as [|e es IH]; intros w Ha Hi Hp Hc; [simpl; kept|].
  simpl in Hc. apply andb_true_iff in Hc. destruct Hc as [Hc Hcs].
  apply negb_true_iff in Hc.
  destruct (step_disarmed JSON_parse w e Ha Hi Hc) as (Ha' & Hi' & Hp' & Hk).
  assert (Hp'' : pending (step JSON_parse w e) = [p]
                 \/ pending (step JSON_parse w e) = []).
  { destruct Hp' as [->|(i & Hlt & ->)]; [exact Hp|].
    right. destruct Hp as [E|E]; rewrite E in *; simpl in Hlt; [|lia].
    destruct i; [reflexivity | lia]. }
  destruct (IH (step JSON_parse w e) Ha' Hi' Hp'' Hcs) as (A & B & C & D).
  change (run JSON_parse w (e :: es))
    with (run JSON_parse (step JSON_parse w e) es).
  cbv zeta. split; [exact A|]. split; [exact B|]. split; [exact C|].
  intros Hs. simpl in Hs. apply andb_true_iff in Hs. destruct Hs as [Hs Hss].
  apply negb_true_iff in Hs.
  destruct (Hk Hs) as (K1 & K2 & K3 & K4).
  destruct (D Hss) as (D1 & D2 & D3 & D4).
  rewrite D1, D2, D3, D4. auto.
Qed.

(** C6.  The user presses Stop while a call is in flight.  The phase
    becomes [IDLE], the timer of the capture loop is cleared, and the call
    stays pending.  As long as the button is not pressed again the page does
    not scan and has no timer: a tick does nothing, [captureFrame] does
    nothing, and no call is issued (the pending calls are the one in flight
    or none).  When the call settles, however it settles and whatever other
    events came before, its classification becomes the current result and,
    if it passes the history condition, is put at the front of the history;
    the guard is cleared and nothing is pending. *)
Theorem C6_stop_in_flight (JSON_parse : Parser) (w : World) (p : string)
        (es : list Event)
        (settled : Js.Completion GeminiService.GenerateContentResponse)
        (now : Z) :
  appState w = SCANNING -> pending w = [p] ->
  let stopped := step JSON_parse w Click in
  let later := run JSON_parse stopped es in
  (appState stopped = IDLE /\ interval stopped = false
   /\ pending stopped = [p] /\ history stopped = history w)
  /\ (noClick es = true ->
      appState later <> SCANNING /\ interval later = false
      /\ step JSON_parse later Tick = later
      /\ captureFrame later = later
      /\ (pending later = [p] \/ pending later = []))
  /\ (noClick es = true -> noSettle es = true ->
      exists r,
        GeminiService.analyzeGesture JSON_parse settled = Js.Normal r
        /\ let done := step JSON_parse later (Settle 0 settled now) in
           currentResult done = Some r
           /\ history done
              = (if App.isValidGesture r
                 then mkHistoryItem now r :: firstn 19 (history w)
                 else history w)
           /\ isProcessingRef done = false /\ pending done = []
           /\ appState done <> SCANNING /\ interval done = false).
Proof.
  intros Ha Hp stopped later.
  assert (Hs : stopped
               = setIntervalLive false
                   (setCurrentResult None (setAppState IDLE w)))
    by apply step_Click_scanning, Ha.
  assert (Hs1 : appState stopped <> SCANNING) by (rewrite Hs; discriminate).
  assert (Hs2 : interval stopped = false) by (rewrite Hs; reflexivity).
  assert (Hs3 : pending stopped = [p]) by (rewrite Hs; exact Hp).
  assert (Hs4 : history stopped = history w) by (rewrite Hs; reflexivity).
  split; [|split].
  - rewrite Hs. simpl. auto.
  - intros Hc.
    destruct (@run_disarmed JSON_parse p es stopped Hs1 Hs2 (or_introl Hs3) Hc)
      as (A & B & C & _).
    fold later in A, B, C.
    split; [exact A|]. split; [exact B|]. split; [|split; [|exact C]].
    + simpl. unfold WebcamCapture.intervalFires. rewrite B. reflexivity.
    + apply captureFrame_not_scanning, A.
  - intros Hc Hn.
    destruct (@run_disarmed JSON_parse p es stopped Hs1 Hs2 (or_introl Hs3) Hc)
      as (A & B & _ & D).
    destruct (D Hn) as (D1 & D2 & _ & _).
    fold later in A, B, D1, D2.
    destruct (analyzeGesture_total JSON_parse settled) as [r Hr].
    exists r. split; [exact Hr|]. cbv zeta.
    assert (Hnth : nth_error (pending later) 0 = Some p)
      by (rewrite D1, Hs3; reflexivity).
    rewrite (step_Settle JSON_parse later 0 settled now Hnth), Hr.
    set (w1 := setPending (remove_nth 0 (pending later)) later).
    destruct (handleCapture_resume_guard (Js.Normal r) now w1)
      as (Hg & _ & Hq & Hst & Ht & _).
    split; [apply (ingest_currentResult r now w1)|].
    split.
    { change (App.handleCapture_resume (Js.Normal r) now w1)
        with (ingest r now w1).
      rewrite ingest_history. unfold w1. simpl history. rewrite D2, Hs4.
      destruct (App.isValidGesture r); reflexivity. }
    split; [exact Hg|]. split.
    { rewrite Hq. unfold w1. simpl. rewrite D1, Hs3. reflexivity. }
    split; [rewrite Hst; exact A | rewrite Ht; exact B].
Qed.

(** C6 on the page right after Start: the user stops, the timer comes due
    twice and the picture changes, then the reply arrives: it is the current
    result and the one item of the history of the idle page. *)
Lemma C6_stop_in_flight_witness :
  let w := run Sample.JSON_parse initial Sample.started in
  let es := [Tick; Dom (Some Sample.video) (Some Sample.canvas); Tick] in
  let later := run Sample.JSON_parse (step Sample.JSON_parse w Click) es in
  step Sample.JSON_parse later Tick = later
  /\ exists r,
      GeminiService.analyzeGesture
        Sample.JSON_parse (Sample.reply Sample.fist_text) = Js.Normal r
      /\ let done := step Sample.JSON_parse later
                          (Settle 0 (Sample.reply Sample.fist_text) 1000) in
         currentResult done = Some r
         /\ history done
            = (if App.isValidGesture r
               then mkHistoryItem 1000 r :: firstn 19 (history w)
               else history w)
         /\ isProcessingRef done = false /\ pending done = []
         /\ appState done <> SCANNING /\ interval done = false.
Proof.
  intros w es later.
  destruct (C6_stop_in_flight Sample.JSON_parse w
              (p := GeminiService.analyzeGesture_request (picture Sample.video))
              es (Sample.reply Sample.fist_text) 1000 eq_refl eq_refl)
    as (_ & Hidle & Hdone).
  split.
  - apply (Hidle eq_refl).
  - apply (Hdone eq_refl eq_refl).
Defined.

(* ================================================================= *)
(** * Further properties *)

(* ----------------------------------------------------------------- *)
(** ** The payload of the request: [cleanBase64] *)

Lemma drop_prefix_app (p s : string) :
  GeminiService.drop_prefix p (p ++ s) = Some s.
Proof.
  induction p as [|a p IH]; [reflexivity|].
  simpl. rewrite Ascii.eqb_refl. exact IH.
Qed.

Lemma drop_prefix_Some (p s r : string) :
  GeminiService.drop_prefix p s = Some r -> s = p ++ r.
Proof.
  revert s. induction p as [|a p IH]; intros s H.
  - simpl in H. injection H as ->. reflexivity.
  - destruct s as [|b s]; [discriminate|]. simpl in H.
    destruct (Ascii.eqb a b) eqn:E; [|discriminate].
    apply Ascii.eqb_eq in E. subst b. simpl. f_equal. apply IH, H.
Qed.

Lemma drop_word_chars_app (t s : string) :
  allWord t = true ->
  GeminiService.drop_word_chars (t ++ ";base64," ++ s) = ";base64," ++ s.
Proof.
  induction t as [|c t IH]; intros H; [reflexivity|].
  simpl in H. apply andb_true_iff in H. destruct H as [Hc Ht].
  simpl. rewrite Hc. apply IH, Ht.
Qed.

Lemma drop_word_chars_suffix (s : string) :
  exists pre, s = pre ++ GeminiService.drop_word_chars s.
Proof.
  induction s as [|c s [pre IH]]; [exists EmptyString; reflexivity|].
  simpl. destruct (GeminiService.is_word_char c).
  - exists (String c pre). simpl. f_equal. exact IH.
  - exists EmptyString. reflexivity.
Qed.

Lemma string_app_assoc (a b c : string) : (a ++ b) ++ c = a ++ (b ++ c).
Proof. induction a as [|x a IH]; [reflexivity|]. simpl. f_equal. exact IH. Qed.

Lemma string_app_length (a b : string) :
  String.length (a ++ b) = String.length a + String.length b.
Proof. induction a as [|x a IH]; [reflexivity|]. simpl. f_equal. exact IH. Qed.

(** X1.  [cleanBase64] removes the prefix of a data URL: for a media
    subtype [t] made of one or more word characters, the text
    [data:image/t;base64,] followed by a payload is mapped to the payload,
    whatever the payload is. *)
Theorem X1_cleanBase64_strips_data_url (t payload : string) :
  t <> EmptyString -> allWord t = true ->
  GeminiService.cleanBase64 ("data:image/" ++ t ++ ";base64," ++ payload)
  = payload.
Proof.
  intros Hne Hw. destruct t as [|c t]; [contradiction|].
  simpl in Hw. apply andb_true_iff in Hw. destruct Hw as [Hc Ht].
  unfold GeminiService.cleanBase64. rewrite drop_prefix_app.
  change (String c t ++ ";base64," ++ payload)
    with (String c (t ++ ";base64," ++ payload)).
  cbv beta iota. rewrite Hc, drop_word_chars_app by exact Ht.
  rewrite drop_prefix_app. reflexivity.
Qed.

(** X1 at the data URL of a JPEG picture, as [canvas.toDataURL] makes it. *)
Lemma X1_cleanBase64_strips_data_url_witness :
  GeminiService.cleanBase64 ("data:image/" ++ "jpeg" ++ ";base64," ++ "/9j/4AAQ")
  = "/9j/4AAQ".
Proof.
  apply (X1_cleanBase64_strips_data_url (t := "jpeg") "/9j/4AAQ").
  - discriminate.
  - reflexivity.
Defined.

(** X2.  [cleanBase64] only ever removes a prefix: its result is a suffix
    of its argument and is never longer; and an argument that does not
    start with [data:image/] is returned as it is. *)
Theorem X2_cleanBase64_suffix (s : string) :
  (exists pre, s = pre ++ GeminiService.cleanBase64 s)
  /\ String.length (GeminiService.cleanBase64 s) <= String.length s
  /\ (GeminiService.drop_prefix "data:image/" s = None ->
      GeminiService.cleanBase64 s = s).
Proof.
  assert (Hsuf : exists pre, s = pre ++ GeminiService.cleanBase64 s).
  { unfold GeminiService.cleanBase64.
    destruct (GeminiService.drop_prefix "data:image/" s) as [[|c rest]|] eqn:E;
      try (exists EmptyString; reflexivity).
    destruct (GeminiService.is_word_char c);
      [|exists EmptyString; reflexivity].
    destruct (GeminiService.drop_prefix ";base64,"
                (GeminiService.drop_word_chars rest)) as [p|] eqn:E2;
      [|exists EmptyString; reflexivity].
    apply drop_prefix_Some in E, E2.
    destruct (drop_word_chars_suffix rest) as [pre Hpre].
    exists ("data:image/" ++ String c pre ++ ";base64,").
    rewrite E, Hpre at 1. rewrite E2.
    rewrite !string_app_assoc. reflexivity. }
  split; [exact Hsuf|]. split.
  - destruct Hsuf as [pre H]. rewrite H at 2. rewrite string_app_length. lia.
  - intros H. unfold GeminiService.cleanBase64. rewrite H. reflexivity.
Qed.

(** X2 at a bare base64 payload, which is sent unchanged. *)
Lemma X2_cleanBase64_suffix_witness :
  GeminiService.cleanBase64 "/9j/4AAQ" = "/9j/4AAQ".
Proof.
  apply (proj2 (proj2 (X2_cleanBase64_suffix "/9j/4AAQ"))). reflexivity.
Defined.

(* ----------------------------------------------------------------- *)
(** ** What the hooks keep in step *)

Lemma PageInvariant_initial : PageInvariant initial.
Proof. unfold PageInvariant. simpl. intuition discriminate. Qed.

Ltac split_matches :=
  repeat match goal with
         | |- context [match ?x with _ => _ end] =>
             destruct x eqn:?; simpl in *
         end.

Lemma PageInvariant_step (JSON_parse : Parser) (w : World) (e : Event) :
  PageInvariant w -> PageInvariant (step JSON_parse w e).
Proof.
  unfold PageInvariant.
  destruct w as [a cr h ip em ipr vr cv sa pd iv pn].
  unfold WebcamCapture.isScanning, App.buttonDisabled. simpl.
  intros (H1 & H2 & H3 & H4). subst iv ip em.
  destruct e as [| |i settled now|settled|video canvas];
    unfold step, commit, WebcamCapture.commit, WebcamCapture.captureLoop,
      WebcamCapture.intervalFires, WebcamCapture.captureFrame,
      WebcamCapture.startCamera, WebcamCapture.is_null,
      WebcamCapture.isScanning, App.buttonDisabled, App.toggleScanning,
      App.handleError, App.handleCapture_begin, App.handleCapture_resume;
    simpl.
  - destruct a, ipr, sa, vr, cv; simpl; split_matches;
      intuition (try discriminate; try congruence).
  - destruct a, ipr, sa, vr, cv; simpl; split_matches;
      intuition (try discriminate; try congruence).
  - destruct (nth_error pn i); simpl;
      [destruct (GeminiService.analyzeGesture JSON_parse settled) as [r|err];
       [destruct (App.isValidGesture r)|]|];
      simpl; destruct a; simpl; intuition (try discriminate; try congruence).
  - destruct settled, a, ipr, sa, vr, cv; simpl; split_matches;
      intuition (try discriminate; try congruence).
  - destruct a; simpl; intuition (try discriminate; try congruence).
Qed.

Lemma PageInvariant_run (JSON_parse : Parser) (es : list Event) (w : World) :
  PageInvariant w -> PageInvariant (run JSON_parse w es).
Proof.
  revert w. induction es as [|e es IH]; intros w H; [exact H|].
  apply IH, PageInvariant_step, H.
Qed.

Lemma In_firstn (A : Type) (x : A) (n : nat) (l : list A) :
  In x (firstn n l) -> In x l.
Proof.
  revert l. induction n as [|n IH]; intros [|y l] H; simpl in *; try tauto.
  destruct H as [H|H]; [left; exact H | right; apply IH, H].
Qed.

Lemma HistoryValid_step (JSON_parse : Parser) (w : World) (e : Event) :
  HistoryValid w -> HistoryValid (step JSON_parse w e).
Proof.
  unfold HistoryValid. intros H. rewrite step_history.
  destruct e as [| |i settled now|settled|video canvas]; try exact H.
  destruct (nth_error (pending w) i); [|exact H].
  destruct (GeminiService.analyzeGesture JSON_parse settled) as [r|err];
    [|exact H].
  destruct (App.isValidGesture r) eqn:Hv; [|exact H].
  rewrite keepLast20_front. constructor; [exact Hv|].
  apply Forall_forall. intros item Hi.
  apply In_firstn in Hi. revert item Hi. apply Forall_forall, H.
Qed.

Lemma HistoryValid_run (JSON_parse : Parser) (es : list Event) (w : World) :
  HistoryValid w -> HistoryValid (run JSON_parse w es).
Proof.
  revert w. induction es as [|e es IH]; intros w H; [exact H|].
  apply IH, HistoryValid_step, H.
Qed.

(** X3.  In every state the page reaches, the timer of the capture loop is
    live exactly when the phase is [SCANNING]: Stop and a camera failure
    clear it, Start sets it, and nothing else touches it. *)
Theorem X3_timer_follows_phase (JSON_parse : Parser) (es : list Event) :
  let w := run JSON_parse initial es in
  interval w = true <-> appState w = SCANNING.
Proof.
  intros w.
  destruct (PageInvariant_run JSON_parse es PageInvariant_initial)
    as (H & _).
  fold w in H. rewrite H. unfold WebcamCapture.isScanning.
  destruct (appState w); simpl; split; congruence.
Qed.

(** X3 on the page right after Start and on the page after Stop. *)
Lemma X3_timer_follows_phase_witness :
  interval (run Sample.JSON_parse initial Sample.started) = true
  /\ appState (run Sample.JSON_parse initial (Sample.started ++ [Click]))
     <> SCANNING.
Proof.
  split.
  - apply (proj2 (X3_timer_follows_phase Sample.JSON_parse Sample.started)).
    reflexivity.
  - intros H.
    apply (proj2 (X3_timer_follows_phase Sample.JSON_parse
                    (Sample.started ++ [Click]))) in H.
    discriminate H.
Defined.

(** X4.  In every state the page reaches, the processing flag that the
    page displays equals the guard, and it is set exactly when a call of the
    remote model is pending. *)
Theorem X4_processing_indicator (JSON_parse : Parser) (es : list Event) :
  let w := run JSON_parse initial es in
  isProcessing w = isProcessingRef w
  /\ (isProcessing w = true <-> pending w <> []).
Proof.
  intros w.
  destruct (PageInvariant_run JSON_parse es PageInvariant_initial)
    as (_ & H & _).
  destruct (Invariant_run JSON_parse es Invariant_initial) as (Hp & _).
  fold w in H, Hp. split; [exact H|]. rewrite H.
  unfold guardCount in Hp.
  destruct (isProcessingRef w), (pending w); simpl in Hp;
    split; intros; congruence.
Qed.

(** X4 on the page right after Start, whose first request is pending. *)
Lemma X4_processing_indicator_witness :
  isProcessing (run Sample.JSON_parse initial Sample.started) = true.
Proof.
  apply (proj2 (proj2 (X4_processing_indicator Sample.JSON_parse
                                               Sample.started))).
  discriminate.
Defined.

(** X5.  In every state the page reaches, the error message is set exactly
    in the [ERROR] phase, where it is the message of the camera failure;
    in the other phases there is no error message and the denied flag of
    the camera is clear. *)
Theorem X5_error_message (JSON_parse : Parser) (es : list Event) :
  let w := run JSON_parse initial es in
  (appState w = ERROR -> errorMsg w = Some deniedMessage)
  /\ (appState w <> ERROR ->
      errorMsg w = None /\ permissionDenied w = false).
Proof.
  intros w.
  destruct (PageInvariant_run JSON_parse es PageInvariant_initial)
    as (_ & _ & He & Hd).
  fold w in He, Hd. unfold App.buttonDisabled in He. split.
  - intros H. rewrite H in He. exact He.
  - intros H. split.
    + destruct (appState w); [exact He | exact He | contradiction].
    + destruct (permissionDenied w); [|reflexivity].
      exfalso. apply H, Hd. reflexivity.
Qed.

(** X5 on the page right after Start and on the page whose camera then
    fails. *)
Lemma X5_error_message_witness :
  errorMsg (run Sample.JSON_parse initial Sample.started) = None
  /\ errorMsg
       (run Sample.JSON_parse initial
            (Sample.started
             ++ [UserMedia (Js.Thrown (Js.Rejection "NotAllowedError"))]))
     = Some deniedMessage.
Proof.
  split.
  - apply (proj2 (X5_error_message Sample.JSON_parse Sample.started)).
    discriminate.
  - apply (proj1 (X5_error_message
                    Sample.JSON_parse
                    (Sample.started
                     ++ [UserMedia (Js.Thrown (Js.Rejection "NotAllowedError"))]))).
    reflexivity.
Defined.

(** X6.  In every state the page reaches, every item of the history has a
    label other than ["None"] and ["Error"] and a confidence above 0.6: the
    fallback of the gateway and the absence of a gesture are never listed. *)
Theorem X6_history_items_valid (JSON_parse : Parser) (es : list Event)
        (item : HistoryItem) :
  In item (history (run JSON_parse initial es)) ->
  gesture (result item) <> "None" /\ gesture (result item) <> "Error"
  /\ Js.gt (confidence (result item)) threshold = true.
Proof.
  intros H. apply isValidGesture_true.
  assert (Hv : HistoryValid (run JSON_parse initial es))
    by (apply HistoryValid_run; constructor).
  unfold HistoryValid in Hv. rewrite Forall_forall in Hv. apply Hv, H.
Qed.

(** X6 on the page whose first request was answered with a ["Fist"]. *)
Lemma X6_history_items_valid_witness :
  gesture Sample.fist <> "None" /\ gesture Sample.fist <> "Error"
  /\ Js.gt (confidence Sample.fist) threshold = true.
Proof.
  apply (X6_history_items_valid
           Sample.JSON_parse
           (Sample.started ++ [Settle 0 (Sample.reply Sample.fist_text) 1000])
           (mkHistoryItem 1000 Sample.fist)).
  left. reflexivity.
Defined.

(* ----------------------------------------------------------------- *)
(** ** The history as a whole *)

Lemma firstn_app_firstn (A : Type) (n : nat) (a b : list A) :
  firstn n (a ++ firstn n b) = firstn n (a ++ b).
Proof.
  rewrite !firstn_app, firstn_firstn. f_equal. f_equal. lia.
Qed.

(** X7.  After a sequence of ingest operations the history is the 20 newest
    of: the classifications of the sequence that pass the history condition,
    newest first, followed by the items the history held before.  Nothing
    is reordered, merged or dropped other than from the old end. *)
Theorem X7_history_is_newest_accepted (cs : list (GestureResponse * Z))
        (w : World) :
  length (history w) <= 20 ->
  history (ingestAll cs w)
  = firstn 20 (rev (acceptedItems cs) ++ history w)%list.
Proof.
  revert w. induction cs as [|[c now] cs IH]; intros w H.
  - change (history w = firstn 20 (history w)).
    symmetry. apply firstn_all2, H.
  - change (ingestAll ((c, now) :: cs) w) with (ingestAll cs (ingest c now w)).
    rewrite IH by (apply handleCapture_resume_history_bound, H).
    rewrite ingest_history. unfold acceptedItems. simpl filter.
    destruct (App.isValidGesture c); [|reflexivity].
    simpl map. simpl rev. rewrite <- app_assoc. simpl app.
    unfold App.keepLast20, Js.slice0. apply firstn_app_firstn.
Qed.

(** X7 at three classifications, of which the second is a ["None"]. *)
Lemma X7_history_is_newest_accepted_witness :
  history (ingestAll [(Sample.fist, 1000%Z); (Sample.none, 2000%Z);
                      (Sample.fist, 3000%Z)] initial)
  = [mkHistoryItem 3000 Sample.fist; mkHistoryItem 1000 Sample.fist].
Proof.
  apply (X7_history_is_newest_accepted
           [(Sample.fist, 1000%Z); (Sample.none, 2000%Z);
            (Sample.fist, 3000%Z)] initial).
  unfold initial. simpl. lia.
Defined.

Lemma StronglySorted_firstn (A : Type) (R : A -> A -> Prop) (n : nat)
      (l : list A) :
  StronglySorted R l -> StronglySorted R (firstn n l).
Proof.
  revert l. induction n as [|n IH]; intros l H; [constructor|].
  destruct l as [|x l]; [constructor|].
  apply StronglySorted_inv in H. destruct H as [Hs Hf].
  simpl. constructor; [apply IH, Hs|].
  apply Forall_forall. intros y Hy. apply In_firstn in Hy.
  revert y Hy. apply Forall_forall, Hf.
Qed.

Lemma StronglySorted_NoDup (l : list Z) :
  StronglySorted (fun a b => (b < a)%Z) l -> NoDup l.
Proof.
  induction l as [|x l IH]; intros H; constructor;
    apply StronglySorted_inv in H; destruct H as [Hs Hf].
  - intros Hin. rewrite Forall_forall in Hf. specialize (Hf x Hin). lia.
  - apply IH, Hs.
Qed.

Lemma history_sorted_run (JSON_parse : Parser) (es : list Event) (w : World) :
  StronglySorted (fun a b => (b < a)%Z) (map timestamp (history w)) ->
  (forall t, In t (map timestamp (history w)) ->
             Forall (Z.lt t) (settleTimes es)) ->
  StronglySorted Z.lt (settleTimes es) ->
  StronglySorted (fun a b => (b < a)%Z)
                 (map timestamp (history (run JSON_parse w es))).
Proof.
  revert w. induction es as [|e es IH]; intros w Hs Hf Ht; [exact Hs|].
  change (run JSON_parse w (e :: es))
    with (run JSON_parse (step JSON_parse w e) es).
  assert (Hsame : history (step JSON_parse w e) = history w ->
                  StronglySorted (fun a b => (b < a)%Z)
                    (map timestamp
                         (history (run JSON_parse (step JSON_parse w e) es)))).
  { intros E. apply IH; rewrite ?E.
    - exact Hs.
    - intros t Hin. specialize (Hf t Hin).
      destruct e; simpl in Hf; try exact Hf.
      apply Forall_inv_tail in Hf. exact Hf.
    - destruct e; simpl in Ht; try exact Ht.
      apply StronglySorted_inv in Ht. apply Ht. }
  pose proof (step_history JSON_parse w e) as Hh.
  destruct e as [| |i settled now|settled|video canvas];
    try (apply Hsame; exact Hh).
  destruct (nth_error (pending w) i); [|apply Hsame; exact Hh].
  destruct (GeminiService.analyzeGesture JSON_parse settled) as [r|err];
    [|apply Hsame; exact Hh].
  destruct (App.isValidGesture r); [|apply Hsame; exact Hh].
  rewrite keepLast20_front in Hh.
  simpl in Ht. apply StronglySorted_inv in Ht. destruct Ht as [Ht Hnow].
  apply IH; rewrite ?Hh.
  - rewrite map_cons. constructor.
    + rewrite <- firstn_map. apply StronglySorted_firstn, Hs.
    + apply Forall_forall. intros t Hin.
      rewrite <- firstn_map in Hin. apply In_firstn in Hin.
      specialize (Hf t Hin). simpl in Hf. apply Forall_inv in Hf. exact Hf.
  - intros t Hin. rewrite map_cons in Hin.
    destruct Hin as [<-|Hin]; [exact Hnow|].
    rewrite <- firstn_map in Hin. apply In_firstn in Hin.
    specialize (Hf t Hin). simpl in Hf. apply Forall_inv_tail in Hf. exact Hf.
  - exact Ht.
Qed.

(** X8.  If the clock advances between the settlements of the calls (the
    values of [Date.now()] are strictly increasing), then in the state the
    page reaches the timestamps of the history are strictly decreasing from
    the front: the history is newest first, and no two items share a
    timestamp, which is the key of an item in the history panel. *)
Theorem X8_history_keys_distinct (JSON_parse : Parser) (es : list Event) :
  StronglySorted Z.lt (settleTimes es) ->
  let h := history (run JSON_parse initial es) in
  StronglySorted (fun a b => (b < a)%Z) (map timestamp h)
  /\ NoDup (map timestamp h).
Proof.
  intros Ht h.
  assert (Hs : StronglySorted (fun a b => (b < a)%Z) (map timestamp h)).
  { apply history_sorted_run; [constructor | intros t [] | exact Ht]. }
  split; [exact Hs | apply StronglySorted_NoDup, Hs].
Qed.

(** X8 on a page that scanned two frames, answered at 1000 and at 2000. *)
Lemma X8_history_keys_distinct_witness :
  let es := (Sample.started
             ++ [Settle 0 (Sample.reply Sample.fist_text) 1000; Tick;
                 Settle 0 (Sample.reply Sample.fist_text) 2000])%list in
  map timestamp (history (run Sample.JSON_parse initial es))
  = [2000%Z; 1000%Z]
  /\ NoDup (map timestamp (history (run Sample.JSON_parse initial es))).
Proof.
  intros es. split; [reflexivity|].
  apply (X8_history_keys_distinct Sample.JSON_parse es).
  unfold es. simpl.
  repeat constructor.
Defined.

(* ----------------------------------------------------------------- *)
(** ** When a frame is sent *)

(** [captureFrame] in terms of the phase and of the picture at hand. *)
Lemma captureFrame_readyPicture (w : World) :
  captureFrame w
  = if WebcamCapture.isScanning w
    then match readyPicture w with
         | Some img => App.handleCapture_begin img w
         | None => w
         end
    else w.
Proof.
  unfold captureFrame, WebcamCapture.captureFrame, readyPicture,
    WebcamCapture.is_null.
  destruct (WebcamCapture.isScanning w), (videoRef w) as [video|],
    (canvasRef w) as [canvas|], (streamActive w); simpl; try reflexivity.
  destruct (context2d canvas && (0 <? videoWidth video)%Z
            && (0 <? videoHeight video)%Z); reflexivity.
Qed.

Lemma captureFrame_sends (w : World) (img : string) :
  WebcamCapture.isScanning w = true -> readyPicture w = Some img ->
  isProcessingRef w = false ->
  pending (captureFrame w)
  = (pending w ++ [GeminiService.cleanBase64 img])%list
  /\ isProcessingRef (captureFrame w) = true
  /\ isProcessing (captureFrame w) = true
  /\ currentResult (captureFrame w) = currentResult w
  /\ history (captureFrame w) = history w.
Proof.
  intros Hs Hr Hg. rewrite captureFrame_readyPicture, Hs, Hr.
  rewrite handleCapture_begin_issued by exact Hg.
  simpl. auto.
Qed.

(** X9.  [captureFrame] sends a frame exactly when the page is scanning, a
    picture is at hand (the stream is active, the video and the canvas are
    attached, the canvas has a context and the video has a width and a
    height) and no call is pending on the guard: it then issues one request
    whose payload is the picture without its data-URL prefix, and sets the
    guard and the processing flag.  In every other case, among them a video
    that has no dimensions yet, it leaves the whole state as it is. *)
Theorem X9_captureFrame_sends (w : World) (img : string) :
  (WebcamCapture.isScanning w = false \/ readyPicture w = None
   \/ isProcessingRef w = true -> captureFrame w = w)
  /\ (WebcamCapture.isScanning w = true -> readyPicture w = Some img ->
      isProcessingRef w = false ->
      let w' := captureFrame w in
      pending w' = (pending w ++ [GeminiService.cleanBase64 img])%list
      /\ isProcessingRef w' = true /\ isProcessing w' = true
      /\ currentResult w' = currentResult w /\ history w' = history w).
Proof.
  rewrite captureFrame_readyPicture. split.
  - intros [H|[H|H]].
    + rewrite H. reflexivity.
    + rewrite H. destruct (WebcamCapture.isScanning w); reflexivity.
    + destruct (WebcamCapture.isScanning w); [|reflexivity].
      destruct (readyPicture w); [|reflexivity].
      apply handleCapture_begin_dropped, H.
  - intros Hs Hr Hg. rewrite <- captureFrame_readyPicture.
    apply captureFrame_sends; assumption.
Qed.

(** X9 on the scanning page whose first call has settled (a frame is sent)
    and on the same page while the video has no dimensions (nothing is). *)
Lemma X9_captureFrame_sends_witness :
  let w := run Sample.JSON_parse initial
               (Sample.started
                ++ [Settle 0 (Sample.reply Sample.none_text) 1000]) in
  let w0 := setDom (Some (mkVideo 0 0 (picture Sample.video)))
                   (Some Sample.canvas) w in
  pending (captureFrame w) = ["/9j/4AAQ"] /\ captureFrame w0 = w0.
Proof.
  intros w w0.
  destruct (X9_captureFrame_sends w (picture Sample.video)) as (_ & Hsend).
  destruct (X9_captureFrame_sends w0 (picture Sample.video)) as (Hskip & _).
  split.
  - apply (Hsend eq_refl eq_refl eq_refl).
  - apply Hskip. right. left. reflexivity.
Defined.

(** X10.  Start captures at once.  A click on the idle page sets the phase
    to [SCANNING] and the timer; if a picture is at hand and no call is
    pending on the guard, the first request is issued in the same step,
    before any tick; if no picture is at hand nothing is issued. *)
Theorem X10_start_captures_at_once (JSON_parse : Parser) (w : World)
        (img : string) :
  appState w = IDLE ->
  let w' := step JSON_parse w Click in
  appState w' = SCANNING /\ interval w' = true
  /\ (readyPicture w = Some img -> isProcessingRef w = false ->
      pending w' = (pending w ++ [GeminiService.cleanBase64 img])%list
      /\ isProcessingRef w' = true)
  /\ (readyPicture w = None -> pending w' = pending w).
Proof.
  intros Ha.
  assert (Ht : App.toggleScanning w = setErrorMsg None (setAppState SCANNING w))
    by (unfold App.toggleScanning; rewrite Ha; reflexivity).
  assert (Hs : step JSON_parse w Click
               = setIntervalLive true
                   (captureFrame
                      (setIntervalLive false
                         (setErrorMsg None (setAppState SCANNING w))))).
  { simpl. unfold App.buttonDisabled, commit, WebcamCapture.commit,
      WebcamCapture.isScanning. rewrite Ht, Ha. reflexivity. }
  cbv zeta. rewrite Hs.
  set (w1 := setIntervalLive false (setErrorMsg None (setAppState SCANNING w))).
  destruct (captureFrame_frame w1) as (H1 & _).
  split; [simpl; rewrite H1; reflexivity|]. split; [reflexivity|]. split.
  - intros Hr Hg.
    destruct (@captureFrame_sends w1 img eq_refl Hr Hg) as (Hp & Hq & _).
    simpl. auto.
  - intros Hr. simpl. rewrite captureFrame_readyPicture.
    change (readyPicture w1) with (readyPicture w). rewrite Hr.
    destruct (WebcamCapture.isScanning w1); reflexivity.
Qed.

(** X10 on the idle page whose camera is granted, and on the initial page,
    which has no picture yet. *)
Lemma X10_start_captures_at_once_witness :
  let w := run Sample.JSON_parse initial
               [Dom (Some Sample.video) (Some Sample.canvas);
                UserMedia (Js.Normal tt)] in
  pending (step Sample.JSON_parse w Click) = ["/9j/4AAQ"]
  /\ pending (step Sample.JSON_parse initial Click) = [].
Proof.
  intros w.
  destruct (X10_start_captures_at_once Sample.JSON_parse w
              (picture Sample.video) eq_refl) as (_ & _ & Hsend & _).
  destruct (X10_start_captures_at_once Sample.JSON_parse initial
              (picture Sample.video) eq_refl) as (_ & _ & _ & Hnone).
  split.
  - apply (Hsend eq_refl eq_refl).
  - apply (Hnone eq_refl).
Defined.

(** X11.  Start pressed before the camera is granted: while the page is
    scanning with an inactive stream, the grant of the camera activates the
    stream and, the video having a picture and no call being pending on the
    guard, issues the first request in the same step. *)
Theorem X11_grant_while_scanning (JSON_parse : Parser) (w : World)
        (video : VideoElement) (canvas : CanvasElement) :
  appState w = SCANNING -> streamActive w = false ->
  isProcessingRef w = false ->
  videoRef w = Some video -> canvasRef w = Some canvas ->
  context2d canvas = true ->
  (0 < videoWidth video)%Z -> (0 < videoHeight video)%Z ->
  let w' := step JSON_parse w (UserMedia (Js.Normal tt)) in
  streamActive w' = true /\ interval w' = true
  /\ pending w'
     = (pending w ++ [GeminiService.cleanBase64 (picture video)])%list
  /\ isProcessingRef w' = true.
Proof.
  intros Ha Hs Hg Hv Hc Hx Hw Hh.
  set (w1 := setIntervalLive false
               (setPermissionDenied false (setStreamActive true w))).
  assert (E : step JSON_parse w (UserMedia (Js.Normal tt))
              = setIntervalLive true (captureFrame w1)).
  { simpl. unfold WebcamCapture.startCamera, WebcamCapture.is_null.
    rewrite Hv. simpl.
    unfold commit, WebcamCapture.commit, WebcamCapture.isScanning.
    simpl. rewrite Hs, Ha. simpl. rewrite captureLoop_eq.
    unfold WebcamCapture.isScanning. simpl. rewrite Ha. reflexivity. }
  cbv zeta. rewrite E.
  assert (Hr : readyPicture w1 = Some (picture video)).
  { unfold readyPicture, w1. simpl. rewrite Hv, Hc, Hx.
    apply Z.ltb_lt in Hw, Hh. rewrite Hw, Hh. reflexivity. }
  assert (Hsc : WebcamCapture.isScanning w1 = true)
    by (unfold WebcamCapture.isScanning, w1; simpl; rewrite Ha; reflexivity).
  destruct (@captureFrame_sends w1 (picture video) Hsc Hr Hg)
    as (Hp & Hq & _).
  destruct (captureFrame_frame w1) as (_ & _ & _ & H4 & _).
  simpl. rewrite H4, Hp, Hq. auto.
Qed.

(** X11 on the page where Start was pressed before the grant. *)
Lemma X11_grant_while_scanning_witness :
  let w := run Sample.JSON_parse initial
               [Dom (Some Sample.video) (Some Sample.canvas); Click] in
  pending w = []
  /\ pending (step Sample.JSON_parse w (UserMedia (Js.Normal tt)))
     = ["/9j/4AAQ"].
Proof.
  intros w. split; [reflexivity|].
  apply (@X11_grant_while_scanning Sample.JSON_parse w Sample.video
           Sample.canvas eq_refl eq_refl eq_refl eq_refl eq_refl eq_refl
           eq_refl eq_refl).
Defined.

Lemma handleCapture_resume_camera awaited now (w : World) :
  let w' := App.handleCapture_resume awaited now w in
  videoRef w' = videoRef w /\ canvasRef w' = canvasRef w
  /\ streamActive w' = streamActive w.
Proof.
  unfold App.handleCapture_resume.
  destruct awaited as [r|e]; [destruct (App.isValidGesture r)|]; simpl; tauto.
Qed.

(** X12.  A failing model does not stop the loop.  On a scanning page with
    a picture at hand and a call in flight, however that call settles
    (reply, reply without text, text that does not parse, rejected request),
    the next tick of the timer issues a new request for the current
    picture. *)
Theorem X12_loop_survives_failures (JSON_parse : Parser) (es : list Event)
        (img p : string)
        (settled : Js.Completion GeminiService.GenerateContentResponse)
        (now : Z) :
  let w := run JSON_parse initial es in
  appState w = SCANNING -> readyPicture w = Some img -> pending w = [p] ->
  let w' := step JSON_parse (step JSON_parse w (Settle 0 settled now)) Tick in
  pending w' = [GeminiService.cleanBase64 img]
  /\ isProcessingRef w' = true
  /\ appState w' = SCANNING.
Proof.
  intros w Ha Hr Hp.
  destruct (PageInvariant_run JSON_parse es PageInvariant_initial)
    as (Hi & _).
  fold w in Hi. unfold WebcamCapture.isScanning in Hi. rewrite Ha in Hi.
  assert (Hn : nth_error (pending w) 0 = Some p) by (rewrite Hp; reflexivity).
  cbv zeta. rewrite (step_Settle JSON_parse w 0 settled now Hn).
  rewrite Hp. simpl remove_nth.
  set (w1 := setPending [] w).
  set (a := GeminiService.analyzeGesture JSON_parse settled).
  destruct (handleCapture_resume_guard a now w1)
    as (Hg & _ & Hq & Hst & Ht & _).
  destruct (handleCapture_resume_camera a now w1) as (Hv & Hc & Hs).
  set (w2 := App.handleCapture_resume a now w1) in *.
  assert (Hr2 : readyPicture w2 = Some img)
    by (unfold readyPicture; rewrite Hv, Hc, Hs; exact Hr).
  assert (Hsc : WebcamCapture.isScanning w2 = true)
    by (unfold WebcamCapture.isScanning; rewrite Hst; simpl; rewrite Ha;
        reflexivity).
  assert (E : step JSON_parse w2 Tick = captureFrame w2).
  { simpl. unfold WebcamCapture.intervalFires. rewrite Ht. simpl.
    rewrite Hi. reflexivity. }
  rewrite E.
  destruct (@captureFrame_sends w2 img Hsc Hr2 Hg) as (Hp2 & Hg2 & _).
  destruct (captureFrame_frame w2) as (Ha2 & _).
  rewrite Hp2, Hg2, Ha2, Hq, Hst. simpl. auto.
Qed.

(** X12 on the page right after Start, whose first request is rejected. *)
Lemma X12_loop_survives_failures_witness :
  let w := run Sample.JSON_parse initial Sample.started in
  pending
    (step Sample.JSON_parse
          (step Sample.JSON_parse w
                (Settle 0 (Js.Thrown (Js.Rejection "fetch failed")) 1000))
          Tick)
  = ["/9j/4AAQ"].
Proof.
  intros w.
  apply (@X12_loop_survives_failures
           Sample.JSON_parse Sample.started (picture Sample.video)
           "/9j/4AAQ" (Js.Thrown (Js.Rejection "fetch failed")) 1000
           eq_refl eq_refl eq_refl).
Defined.

(* ----------------------------------------------------------------- *)
(** ** After a camera failure, and after Stop *)

Lemma remove_nth_length (A : Type) (i : nat) (l : list A) :
  length (remove_nth i l) <= length l.
Proof.
  revert i. induction l as [|x l IH]; intros [|i]; simpl; try lia.
  specialize (IH i). lia.
Qed.

Lemma run_ERROR_pending (JSON_parse : Parser) (es : list Event) (w : World) :
  appState w = ERROR -> interval w = false ->
  interval (run JSON_parse w es) = false
  /\ length (pending (run JSON_parse w es)) <= length (pending w).
Proof.
  revert w. induction es as [|e es IH]; intros w Ha Hi; [auto|].
  change (run JSON_parse w (e :: es))
    with (run JSON_parse (step JSON_parse w e) es).
  destruct (isClick e) eqn:Hc.
  - destruct e; try discriminate.
    rewrite step_Click_ERROR by exact Ha. apply IH; assumption.
  - assert (Hn : appState w <> SCANNING) by (rewrite Ha; discriminate).
    destruct (step_disarmed JSON_parse w e Hn Hi Hc) as (_ & Hi' & Hp & _).
    destruct (IH (step JSON_parse w e) (step_ERROR JSON_parse w e Ha) Hi')
      as (A & B).
    split; [exact A|].
    destruct Hp as [E|(i & _ & E)]; rewrite E in B; [exact B|].
    pose proof (remove_nth_length i (pending w)). lia.
Qed.

(** X13.  After a camera failure no frame is sent again.  Once the page is
    in the [ERROR] phase, under every further sequence of events (clicks,
    ticks, settlements, a later grant of the camera on Retry) the phase
    stays [ERROR], the timer stays cleared, a tick and a click leave the
    state as it is, and the number of pending calls never grows: no request
    is issued. *)
Theorem X13_no_request_after_failure (JSON_parse : Parser)
        (es0 es : list Event) :
  let w := run JSON_parse initial es0 in
  appState w = ERROR ->
  let w' := run JSON_parse w es in
  appState w' = ERROR /\ interval w' = false
  /\ length (pending w') <= length (pending w)
  /\ step JSON_parse w' Click = w' /\ step JSON_parse w' Tick = w'.
Proof.
  intros w Ha w'.
  destruct (PageInvariant_run JSON_parse es0 PageInvariant_initial)
    as (Hi & _).
  fold w in Hi. unfold WebcamCapture.isScanning in Hi. rewrite Ha in Hi.
  simpl in Hi.
  destruct (run_ERROR_pending JSON_parse es w Ha Hi) as (Hi' & Hp).
  fold w' in Hi', Hp.
  assert (Ha' : appState w' = ERROR) by apply run_ERROR, Ha.
  split; [exact Ha'|]. split; [exact Hi'|]. split; [exact Hp|]. split.
  - apply step_Click_ERROR, Ha'.
  - simpl. unfold WebcamCapture.intervalFires. rewrite Hi'. reflexivity.
Qed.

(** X13 on the page whose camera fails while scanning and is granted again
    on Retry: the click and the tick that follow send nothing. *)
Lemma X13_no_request_after_failure_witness :
  let es0 := (Sample.started
              ++ [UserMedia (Js.Thrown (Js.Rejection "NotAllowedError"));
                  Settle 0 (Sample.reply Sample.fist_text) 1000])%list in
  let w' := run Sample.JSON_parse (run Sample.JSON_parse initial es0)
                [UserMedia (Js.Normal tt); Click; Tick] in
  permissionDenied w' = false /\ streamActive w' = true
  /\ appState w' = ERROR /\ pending w' = [].
Proof.
  intros es0 w'.
  destruct (X13_no_request_after_failure Sample.JSON_parse es0
              [UserMedia (Js.Normal tt); Click; Tick] eq_refl)
    as (Ha & _ & Hp & _).
  split; [reflexivity|]. split; [reflexivity|]. split; [exact Ha|].
  fold w' in Hp. destruct (pending w'); [reflexivity|].
  simpl in Hp. lia.
Defined.

Lemma step_quiet (JSON_parse : Parser) (w : World) (e : Event) :
  appState w <> SCANNING -> interval w = false -> pending w = [] ->
  isClick e = false ->
  let w' := step JSON_parse w e in
  appState w' <> SCANNING /\ interval w' = false /\ pending w' = []
  /\ currentResult w' = currentResult w.
Proof.
  intros Ha Hi Hp Hc. cbv zeta.
  destruct (isSettle e) eqn:Hs.
  - destruct e as [| |i settled now| |]; try discriminate.
    assert (E : step JSON_parse w (Settle i settled now) = w).
    { simpl. rewrite Hp. destruct i; reflexivity. }
    rewrite E. auto.
  - destruct (step_disarmed JSON_parse w e Ha Hi Hc) as (A & B & _ & D).
    destruct (D Hs) as (D1 & _ & D3 & _).
    rewrite D1, D3. auto.
Qed.

(** X14.  Stop with no call in flight empties the overlay for good.  When
    Stop is pressed on a scanning page whose guard is clear, the current
    result is cleared and, until the button is pressed again, it stays
    cleared and no call is pending, whatever else happens. *)
Theorem X14_stop_idle_clears_result (JSON_parse : Parser)
        (es0 es : list Event) :
  let w := run JSON_parse initial es0 in
  appState w = SCANNING -> isProcessingRef w = false -> noClick es = true ->
  let w' := run JSON_parse (step JSON_parse w Click) es in
  currentResult w' = None /\ pending w' = [] /\ appState w' <> SCANNING.
Proof.
  intros w Ha Hg Hc.
  assert (Hp : pending w = []).
  { destruct (Invariant_run JSON_parse es0 Invariant_initial) as (Hl & _).
    fold w in Hl. unfold guardCount in Hl. rewrite Hg in Hl.
    destruct (pending w); [reflexivity | discriminate]. }
  rewrite (step_Click_scanning JSON_parse w Ha).
  set (stopped := setIntervalLive false
                    (setCurrentResult None (setAppState IDLE w))).
  assert (H : appState stopped <> SCANNING /\ interval stopped = false
              /\ pending stopped = [] /\ currentResult stopped = None)
    by (unfold stopped; simpl; rewrite Hp; intuition discriminate).
  clearbody stopped. revert stopped H.
  induction es as [|e es IH]; intros s (H1 & H2 & H3 & H4); [simpl; auto|].
  simpl in Hc. apply andb_true_iff in Hc. destruct Hc as [Hc Hcs].
  apply negb_true_iff in Hc.
  destruct (step_quiet JSON_parse s e H1 H2 H3 Hc) as (A & B & C & D).
  change (run JSON_parse s (e :: es))
    with (run JSON_parse (step JSON_parse s e) es).
  apply (IH Hcs). rewrite D. auto.
Qed.

(** X14 on the scanning page whose first call has settled: after Stop the
    late settlement, the tick and the new picture change nothing. *)
Lemma X14_stop_idle_clears_result_witness :
  let es0 := (Sample.started
              ++ [Settle 0 (Sample.reply Sample.fist_text) 1000])%list in
  let w := run Sample.JSON_parse initial es0 in
  currentResult w = Some Sample.fist
  /\ currentResult
       (run Sample.JSON_parse (step Sample.JSON_parse w Click)
            [Tick; Settle 0 (Sample.reply Sample.fist_text) 2000;
             Dom (Some Sample.video) (Some Sample.canvas)])
     = None.
Proof.
  intros es0 w. split; [reflexivity|].
  apply (@X14_stop_idle_clears_result
           Sample.JSON_parse es0
           [Tick; Settle 0 (Sample.reply Sample.fist_text) 2000;
            Dom (Some Sample.video) (Some Sample.canvas)]
           eq_refl eq_refl eq_refl).
Defined.

(* ----------------------------------------------------------------- *)
(** ** What the user sees of a settlement *)

(** X15.  When a pending call settles, a failure of the remote model is
    shown to the user and not recorded: the result overlay shows the
    fallback of the gateway (label ["Error"], confidence 0) and the history
    is unchanged.  A reply labelled ["None"] becomes the current result but
    is not shown in the overlay, whatever its confidence. *)
Theorem X15_overlay_after_settlement (JSON_parse : Parser) (w : World)
        (i : nat)
        (settled : Js.Completion GeminiService.GenerateContentResponse)
        (now : Z) :
  i < length (pending w) ->
  let w' := step JSON_parse w (Settle i settled now) in
  (oracleFailed JSON_parse settled = true ->
   resultOverlay w' = Some GeminiService.fallback
   /\ history w' = history w)
  /\ (forall r,
        GeminiService.analyzeGesture JSON_parse settled = Js.Normal r ->
        gesture r = "None" ->
        currentResult w' = Some r /\ resultOverlay w' = None
        /\ history w' = history w).
Proof.
  intros Hi. apply nth_error_Some in Hi.
  destruct (nth_error (pending w) i) as [p|] eqn:Hn; [|congruence].
  cbv zeta. rewrite (step_Settle JSON_parse w i settled now Hn).
  set (w1 := setPending (remove_nth i (pending w)) w).
  split.
  - intros Hf. rewrite (analyzeGesture_failed JSON_parse settled Hf).
    change (App.handleCapture_resume (Js.Normal GeminiService.fallback) now w1)
      with (ingest GeminiService.fallback now w1).
    unfold resultOverlay. rewrite ingest_currentResult, ingest_history.
    split; reflexivity.
  - intros r Hr Hg. rewrite Hr.
    change (App.handleCapture_resume (Js.Normal r) now w1)
      with (ingest r now w1).
    unfold resultOverlay. rewrite ingest_currentResult, ingest_history.
    assert (Hv : App.isValidGesture r = false)
      by (unfold App.isValidGesture; rewrite Hg; reflexivity).
    rewrite Hv, Hg. auto.
Qed.

(** X15 on the page right after Start, whose request is rejected, and
    whose request is answered with ["None"]. *)
Lemma X15_overlay_after_settlement_witness :
  let w := run Sample.JSON_parse initial Sample.started in
  resultOverlay
    (step Sample.JSON_parse w
          (Settle 0 (Js.Thrown (Js.Rejection "fetch failed")) 1000))
  = Some GeminiService.fallback
  /\ resultOverlay
       (step Sample.JSON_parse w
             (Settle 0 (Sample.reply Sample.none_text) 1000))
     = None.
Proof.
  intros w.
  assert (Hi : 0 < length (pending w)) by (unfold w; simpl; lia).
  destruct (@X15_overlay_after_settlement
              Sample.JSON_parse w 0
              (Js.Thrown (Js.Rejection "fetch failed")) 1000 Hi)
    as (Hfail & _).
  destruct (@X15_overlay_after_settlement
              Sample.JSON_parse w 0 (Sample.reply Sample.none_text) 1000 Hi)
    as (_ & Hnone).
  split.
  - apply (Hfail eq_refl).
  - apply (Hnone Sample.none eq_refl eq_refl).
Defined.

Lemma step_history_nonempty (JSON_parse : Parser) (w : World) (e : Event) :
  history w <> [] -> history (step JSON_parse w e) <> [].
Proof.
  intros H. rewrite step_history.
  destruct e as [| |i settled now|settled|video canvas]; try exact H.
  destruct (nth_error (pending w) i); [|exact H].
  destruct (GeminiService.analyzeGesture JSON_parse settled) as [r|err];
    [|exact H].
  destruct (App.isValidGesture r); [|exact H].
  rewrite keepLast20_front. discriminate.
Qed.

(** X16.  The history is never cleared: once it holds an item it holds one
    after every further sequence of events, so the history panel shows its
    empty message only before the first accepted classification. *)
Theorem X16_history_never_cleared (JSON_parse : Parser) (es : list Event)
        (w : World) :
  history w <> [] -> history (run JSON_parse w es) <> [].
Proof.
  revert w. induction es as [|e es IH]; intros w H; [exact H|].
  apply IH, step_history_nonempty, H.
Qed.

(** X16 on the page that holds one item, through Stop, Start, a rejected
    request and a camera failure. *)
Lemma X16_history_never_cleared_witness :
  let w := run Sample.JSON_parse initial
               (Sample.started
                ++ [Settle 0 (Sample.reply Sample.fist_text) 1000]) in
  history
    (run Sample.JSON_parse w
         [Click; Click; Settle 0 (Js.Thrown (Js.Rejection "fetch failed")) 2000;
          UserMedia (Js.Thrown (Js.Rejection "NotAllowedError"))])
  <> [].
Proof.
  intros w.
  apply (@X16_history_never_cleared Sample.JSON_parse
           [Click; Click; Settle 0 (Js.Thrown (Js.Rejection "fetch failed")) 2000;
            UserMedia (Js.Thrown (Js.Rejection "NotAllowedError"))] w).
  discriminate.
Defined.
